(** * Zone database reload engine (knot/server/zone-load.c)

    A shallow embedding of the reload code of the name server: the zone
    file classifier, the three zone builders (bootstrap, load, preserve),
    the per-zone update pipeline with its rollback, the loader threads and
    the database switch.

    Zones and zone contents live in a store indexed by addresses, so that
    pointer identity, shared contents and the back-reference of a contents
    to its zone are what they are in the C code.  A dereference of NULL or
    of a freed address has no result ([None]).  The collaborators whose
    bodies are outside this file (parser, journal, signer, name
    conversion, allocation results) are the fields of [externals]; their
    calls are recorded in the trace of the store. *)

From Stdlib Require Import ZArith.
From Stdlib.Strings Require Import Byte.
From stdpp Require Import gmap strings list fin_maps.

Open Scope Z_scope.

(** ** Error codes and data structures *)

(** The codes named in zone-load.c, and two more codes of libknot for the
    failures of the collaborators. *)
Inductive knot_error : Set :=
  | KNOT_EOK
  | KNOT_ENOENT
  | KNOT_EINVAL
  | KNOT_ENOMEM
  | KNOT_ERANGE
  | KNOT_EACCES
  | KNOT_ERROR
  | KNOT_EZONENOENT
  | KNOT_EMALF
  | KNOT_DNSSEC_ENOKEY.

#[global] Instance knot_error_eq_dec : EqDecision knot_error.
Proof. solve_decision. Defined.

(** Addresses of [zone_t] and [knot_zone_contents_t] objects. *)
Abbreviation zone_ptr := nat (only parsing).
Abbreviation contents_ptr := nat (only parsing).

(** A domain name in its canonical form. *)
Abbreviation knot_dname_t := string (only parsing).

(** [conf_zone_t]: the fields of a zone configuration read by the loader. *)
Record conf_zone_t : Set := {
  c_name : string;              (* conf->name *)
  c_file : string;              (* conf->file *)
  c_acl_xfr_in : list string;   (* conf->acl.xfr_in *)
  c_dbsync_timeout : Z          (* conf->dbsync_timeout *)
}.

#[global] Instance conf_zone_eq_dec : EqDecision conf_zone_t.
Proof. solve_decision. Defined.

(** [conf_t]: the list of zones and its recorded length. *)
Record conf_t : Set := {
  zones : list conf_zone_t;
  zones_count : nat
}.

(** [knot_zone_contents_t]: the back-reference to the owning zone, and what
    the collaborators read from the record set: the SOA serial, the result
    of loading NSEC3PARAM and whether the zone is signed. *)
Record knot_zone_contents_t : Set := {
  zc_zone : option zone_ptr;    (* contents->zone *)
  zc_serial : Z;                (* knot_zone_serial(contents) *)
  zc_nsec3param : knot_error;   (* knot_zone_contents_load_nsec3param *)
  zc_signed : bool              (* knot_zone_contents_is_signed *)
}.

#[global] Instance contents_eq_dec : EqDecision knot_zone_contents_t.
Proof. solve_decision. Defined.

(** [zone_t]. *)
Record zone_t : Set := {
  z_name : knot_dname_t;            (* zone->name *)
  z_contents : option contents_ptr; (* zone->contents *)
  zonefile_mtime : Z;               (* zone->zonefile_mtime *)
  zonefile_serial : Z;              (* zone->zonefile_serial *)
  z_server : option nat;            (* zone->server *)
  z_conf : conf_zone_t              (* zone->conf *)
}.

#[global] Instance zone_eq_dec : EqDecision zone_t.
Proof. solve_decision. Defined.

(** A zone structure that holds a name and its configuration and is zero
    otherwise. *)
Definition zone_init (n : knot_dname_t) (conf : conf_zone_t) : zone_t :=
  {| z_name := n; z_contents := None;
     zonefile_mtime := 0; zonefile_serial := 0;
     z_server := None; z_conf := conf |}.

Definition set_contents (z : zone_t) (c : option contents_ptr) : zone_t :=
  {| z_name := z_name z; z_contents := c;
     zonefile_mtime := zonefile_mtime z; zonefile_serial := zonefile_serial z;
     z_server := z_server z; z_conf := z_conf z |}.

Definition set_server (z : zone_t) (srv : option nat) : zone_t :=
  {| z_name := z_name z; z_contents := z_contents z;
     zonefile_mtime := zonefile_mtime z; zonefile_serial := zonefile_serial z;
     z_server := srv; z_conf := z_conf z |}.

Definition set_zonefile (z : zone_t) (mtime serial : Z) : zone_t :=
  {| z_name := z_name z; z_contents := z_contents z;
     zonefile_mtime := mtime; zonefile_serial := serial;
     z_server := z_server z; z_conf := z_conf z |}.

Definition set_zc_zone (c : knot_zone_contents_t) (z : option zone_ptr)
  : knot_zone_contents_t :=
  {| zc_zone := z; zc_serial := zc_serial c;
     zc_nsec3param := zc_nsec3param c; zc_signed := zc_signed c |}.

(** [knot_zonedb_t]: zones by name. *)
Abbreviation knot_zonedb_t := (gmap string nat) (only parsing).

(** [knot_nameserver_t]: the live database, the server back-reference and
    the EDNS payload of the OPT RR. *)
Record knot_nameserver_t : Type := {
  zone_db : option knot_zonedb_t;   (* ns->zone_db, NULL when missing *)
  ns_data : option nat;             (* ns->data *)
  ns_edns_payload : Z               (* knot_edns_get_payload(ns->opt_rr) *)
}.

Definition set_zone_db (ns : knot_nameserver_t) (db : option knot_zonedb_t)
  : knot_nameserver_t :=
  {| zone_db := db; ns_data := ns_data ns;
     ns_edns_payload := ns_edns_payload ns |}.

(** [zone_status_t]. *)
Inductive zone_status_t : Set :=
  | ZONE_STATUS_NOT_FOUND
  | ZONE_STATUS_FOUND_NEW
  | ZONE_STATUS_FOUND_CURRENT
  | ZONE_STATUS_FOUND_UPDATED.

#[global] Instance zone_status_eq_dec : EqDecision zone_status_t.
Proof. solve_decision. Defined.

(** ** Calls to collaborators, in the order they are made *)

Inductive event : Set :=
  | EvFreeze (zone : zone_ptr)                       (* zone_freeze *)
  | EvResetTimers (zone : zone_ptr)                  (* zone_reset_timers *)
  | EvJournalApply (zone : zone_ptr)                 (* zones_journal_apply *)
  | EvDiffAndSign (zone : zone_ptr) (new_content : bool)
  | EvScheduleSync (zone : zone_ptr) (timeout : Z)   (* zones_schedule_ixfr_sync *)
  | EvLoadNsec3param (contents : contents_ptr)
  | EvWarnEdns (zone_name : string)                  (* log_zone_warning *)
  | EvConfFree (zone_name : string)                  (* conf_free_zone *)
  | EvInsertFailed (zone_name : string).             (* log_zone_error *)

#[global] Instance event_eq_dec : EqDecision event.
Proof. solve_decision. Defined.

(** The parser's result: the apex name of the zone file and its contents. *)
Record parsed_zone : Set := {
  p_name : knot_dname_t;
  p_serial : Z;
  p_nsec3param : knot_error;
  p_signed : bool
}.

(** The contents built by the parser, bound to their zone. *)
Definition contents_of_parsed (pz : parsed_zone) (zone : zone_ptr)
  : knot_zone_contents_t :=
  {| zc_zone := Some zone; zc_serial := p_serial pz;
     zc_nsec3param := p_nsec3param pz; zc_signed := p_signed pz |}.

(** ** The collaborators *)

Record externals : Type := {
  (* stat(): the st_mtime of the file, None when stat returns -1 *)
  stat : string -> option Z;
  (* knot_dname_from_str(): NULL on failure *)
  knot_dname_from_str : string -> option knot_dname_t;
  (* knot_dname_cmp(): 0 when the names are equal *)
  knot_dname_cmp : knot_dname_t -> option knot_dname_t -> Z;
  (* zone_new(): false when the allocation fails *)
  zone_new_ok : conf_zone_t -> bool;
  (* knot_zload_open() *)
  knot_zload_open : conf_zone_t -> knot_error;
  (* knot_zload_load(): NULL on failure *)
  knot_zload_load : conf_zone_t -> option parsed_zone;
  (* zones_journal_apply() *)
  zones_journal_apply : zone_t -> knot_error;
  (* zones_do_diff_and_sign() *)
  zones_do_diff_and_sign : conf_zone_t -> zone_t -> bool -> knot_error;
  (* EDNS_MIN_DNSSEC_PAYLOAD *)
  EDNS_MIN_DNSSEC_PAYLOAD : Z;
  (* knot_zonedb_new(): false when the allocation fails *)
  knot_zonedb_new_ok : bool;
  (* pthread_mutex_init() >= 0 *)
  pthread_mutex_init_ok : bool;
  (* dt_optimal_size() *)
  dt_optimal_size : nat;
  (* dt_create() != NULL *)
  dt_create_ok : bool
}.

(** ** The store and its monad *)

Record state : Type := {
  zone_heap : gmap nat zone_t;
  contents_heap : gmap nat knot_zone_contents_t;
  next_ptr : nat;
  trace : list event
}.

Definition M (A : Type) : Type := state -> option (A * state).

#[global] Instance M_ret : MRet M := fun A a s => Some (a, s).

#[global] Instance M_bind : MBind M := fun A B k m s =>
  match m s with
  | Some (a, s') => k a s'
  | None => None
  end.

(** Dereference of a zone pointer. *)
Definition get_zone (p : zone_ptr) : M zone_t :=
  fun s => match zone_heap s !! p with
           | Some z => Some (z, s)
           | None => None
           end.

(** Store through a zone pointer. *)
Definition put_zone (p : zone_ptr) (z : zone_t) : M unit :=
  fun s => match zone_heap s !! p with
           | Some _ => Some (tt, {| zone_heap := <[p := z]> (zone_heap s);
                                    contents_heap := contents_heap s;
                                    next_ptr := next_ptr s;
                                    trace := trace s |})
           | None => None
           end.

Definition get_zcontents (p : contents_ptr) : M knot_zone_contents_t :=
  fun s => match contents_heap s !! p with
           | Some c => Some (c, s)
           | None => None
           end.

Definition put_zcontents (p : contents_ptr) (c : knot_zone_contents_t) : M unit :=
  fun s => match contents_heap s !! p with
           | Some _ => Some (tt, {| zone_heap := zone_heap s;
                                    contents_heap := <[p := c]> (contents_heap s);
                                    next_ptr := next_ptr s;
                                    trace := trace s |})
           | None => None
           end.

(** Allocation of a zone and of a contents at a fresh address. *)
Definition alloc_zone (z : zone_t) : M zone_ptr :=
  fun s => Some (next_ptr s, {| zone_heap := <[next_ptr s := z]> (zone_heap s);
                                contents_heap := contents_heap s;
                                next_ptr := S (next_ptr s);
                                trace := trace s |}).

Definition alloc_zcontents (c : knot_zone_contents_t) : M contents_ptr :=
  fun s => Some (next_ptr s, {| zone_heap := zone_heap s;
                                contents_heap := <[next_ptr s := c]> (contents_heap s);
                                next_ptr := S (next_ptr s);
                                trace := trace s |}).

Definition emit (e : event) : M unit :=
  fun s => Some (tt, {| zone_heap := zone_heap s;
                        contents_heap := contents_heap s;
                        next_ptr := next_ptr s;
                        trace := trace s ++ [e] |}).

(** Release of a zone structure and of a contents; releasing what is not
    allocated has no result. *)
Definition free_zone (p : zone_ptr) : M unit :=
  fun s => match zone_heap s !! p with
           | Some _ => Some (tt, {| zone_heap := delete p (zone_heap s);
                                    contents_heap := contents_heap s;
                                    next_ptr := next_ptr s;
                                    trace := trace s |})
           | None => None
           end.

Definition free_zcontents (p : contents_ptr) : M unit :=
  fun s => match contents_heap s !! p with
           | Some _ => Some (tt, {| zone_heap := zone_heap s;
                                    contents_heap := delete p (contents_heap s);
                                    next_ptr := next_ptr s;
                                    trace := trace s |})
           | None => None
           end.

(** Dereference of a NULL pointer. *)
Definition undefined {A} : M A := fun _ => None.

(** A store is well formed when no object lies at or above the next fresh
    address. *)
Definition wf_state (s : state) : Prop :=
  map_Forall (fun p _ => (p < next_ptr s)%nat) (zone_heap s) /\
  map_Forall (fun p _ => (p < next_ptr s)%nat) (contents_heap s).

Section ZoneLoad.

Variable E : externals.

(** ** zone_file_status *)

Definition zone_file_status (old_zone : option zone_ptr) (filename : string)
  : M zone_status_t :=
  match stat E filename with
  | None => mret ZONE_STATUS_NOT_FOUND
  | Some st_mtime =>
    match old_zone with
    | None => mret ZONE_STATUS_FOUND_NEW
    | Some oz =>
      z ← get_zone oz;
      if bool_decide (zonefile_mtime z = st_mtime)
      then mret ZONE_STATUS_FOUND_CURRENT
      else mret ZONE_STATUS_FOUND_UPDATED
    end
  end.

(** ** Zone structures: allocation, release, database

    The bodies of these functions of knot/zone/zone.h and
    knot/zone/zonedb.h are outside this file. *)

(** Modelled from the spec: [zone_new] allocates a Zone shell for a zone
    configuration: the name of the configuration, no contents, no recorded
    modification time or serial.  It returns NULL when the allocation or
    the conversion of the name fails. *)
Definition zone_new (conf : conf_zone_t) : M (option zone_ptr) :=
  if zone_new_ok E conf then
    match knot_dname_from_str E (c_name conf) with
    | Some n =>
      p ← alloc_zone (zone_init n conf);
      mret (Some p)
    | None => mret None
    end
  else mret None.

(** Modelled from the spec: [zone_deep_free] releases the zone structure
    and the contents it references, if any. *)
Definition zone_deep_free (zone : zone_ptr) : M unit :=
  z ← get_zone zone;
  match z_contents z with
  | Some c => free_zcontents c
  | None => mret tt
  end;;
  free_zone zone.

(** Modelled from the spec: [knot_zonedb_find] looks a name up; a missing
    database has no zones. *)
Definition knot_zonedb_find (db : option (gmap string nat)) (name : knot_dname_t)
  : option zone_ptr :=
  match db with
  | Some d => d !! name
  | None => None
  end.

(** Modelled from the spec: [knot_zonedb_insert] adds the zone under its
    name; names are unique, and a name that is already present is an
    error. *)
Definition knot_zonedb_insert (db : gmap string nat) (zone : zone_ptr)
  : M (knot_error * gmap string nat) :=
  z ← get_zone zone;
  match db !! z_name z with
  | Some _ => mret (KNOT_ERROR, db)
  | None => mret (KNOT_EOK, <[z_name z := zone]> db)
  end.

(** Modelled from the spec: the parser builds a zone structure named after
    the apex of the zone file, with its own contents bound to it. *)
Definition zload_load (conf : conf_zone_t) : M (option zone_ptr) :=
  match knot_zload_load E conf with
  | None => mret None
  | Some pz =>
    zone ← alloc_zone (zone_init (p_name pz) conf);
    c ← alloc_zcontents (contents_of_parsed pz zone);
    z ← get_zone zone;
    put_zone zone (set_contents z (Some c));;
    mret (Some zone)
  end.

(** Modelled from the spec: [knot_zone_serial] reads the SOA serial of the
    contents it is given. *)
Definition knot_zone_serial (contents : option contents_ptr) : M Z :=
  match contents with
  | Some c => zc ← get_zcontents c; mret (zc_serial zc)
  | None => undefined
  end.

(** Modelled from the spec: the macro [EMPTY_LIST] of common/lists.h holds
    of a list without elements. *)
Definition EMPTY_LIST {A} (l : list A) : bool :=
  match l with
  | [] => true
  | _ :: _ => false
  end.

(** ** bootstrap_zone *)

Definition bootstrap_zone (conf : conf_zone_t) : M (option zone_ptr) :=
  let bootstrap := negb (EMPTY_LIST (c_acl_xfr_in conf)) in
  if negb bootstrap then mret None
  else
    new_zone ← zone_new conf;
    match new_zone with
    | None => mret None
    | Some nz => mret (Some nz)
    end.

(** ** load_zone *)

Definition load_zone (conf : conf_zone_t) : M (option zone_ptr) :=
  match knot_zload_open E conf with
  | KNOT_EOK =>
    loaded ← zload_load conf;
    match loaded with
    | None => mret None
    | Some zone =>
      let dname_req := knot_dname_from_str E (c_name conf) in
      z ← get_zone zone;
      if bool_decide (knot_dname_cmp E (z_name z) dname_req ≠ 0) then
        zone_deep_free zone;; mret None
      else
        match stat E (c_file conf) with
        | None => zone_deep_free zone;; mret None
        | Some st_mtime =>
          serial ← knot_zone_serial (z_contents z);
          put_zone zone (set_zonefile z st_mtime serial);;
          mret (Some zone)
        end
    end
  | _ => mret None
  end.

(** ** preserve_zone *)

Definition preserve_zone (conf : conf_zone_t) (old_zone : zone_ptr)
  : M (option zone_ptr) :=
  created ← zone_new conf;
  match created with
  | None => mret None
  | Some new_zone =>
    oz ← get_zone old_zone;
    nz ← get_zone new_zone;
    (* new_zone->contents = old_zone->contents *)
    put_zone new_zone (set_contents nz (z_contents oz));;
    (* new_zone->contents->zone = new_zone *)
    match z_contents oz with
    | None => undefined
    | Some c =>
      zc ← get_zcontents c;
      put_zcontents c (set_zc_zone zc (Some new_zone));;
      mret (Some new_zone)
    end
  end.

(** ** create_zone *)

Definition create_zone (old_zone : option zone_ptr) (conf : conf_zone_t)
    (ns : knot_nameserver_t) : M (option zone_ptr) :=
  zstatus ← zone_file_status old_zone (c_file conf);
  created ←
    match zstatus with
    | ZONE_STATUS_NOT_FOUND => bootstrap_zone conf
    | ZONE_STATUS_FOUND_NEW | ZONE_STATUS_FOUND_UPDATED => load_zone conf
    | ZONE_STATUS_FOUND_CURRENT =>
      match old_zone with
      | Some oz => preserve_zone conf oz
      | None => undefined
      end
    end;
  match created with
  | None => mret None
  | Some new_zone =>
    z ← get_zone new_zone;
    put_zone new_zone (set_server z (ns_data ns));;
    emit (EvResetTimers new_zone);;
    mret (Some new_zone)
  end.

(** ** update_zone *)

(** The code after the label [fail]: the zone is handed out on success;
    otherwise recycled contents are bound back to the old zone and the new
    zone is released. *)
Definition update_zone_fail (result : knot_error) (new_content : bool)
    (old_zone : option zone_ptr) (new_zone : zone_ptr)
  : M (knot_error * option zone_ptr) :=
  if bool_decide (result = KNOT_EOK) then mret (KNOT_EOK, Some new_zone)
  else
    (if negb new_content then
       match old_zone with
       | None => undefined
       | Some oz =>
         o ← get_zone oz;
         match z_contents o with
         | None => undefined
         | Some c =>
           (* old_zone->contents->zone = old_zone *)
           zc ← get_zcontents c;
           put_zcontents c (set_zc_zone zc (Some oz));;
           (* new_zone->contents = NULL *)
           nz ← get_zone new_zone;
           put_zone new_zone (set_contents nz None)
         end
       end
     else mret tt);;
    zone_deep_free new_zone;;
    mret (result, None).

Definition update_zone (old_zone : option zone_ptr) (conf : conf_zone_t)
    (ns : knot_nameserver_t) : M (knot_error * option zone_ptr) :=
  created ← create_zone old_zone conf ns;
  match created with
  | None => mret (KNOT_EZONENOENT, None)
  | Some new_zone =>
    nz ← get_zone new_zone;
    new_content ←
      match old_zone with
      | None => mret true
      | Some oz =>
        o ← get_zone oz;
        mret (negb (bool_decide (z_contents o = z_contents nz)))
      end;
    emit (EvJournalApply new_zone);;
    let result := zones_journal_apply E nz in
    if bool_decide (result ≠ KNOT_EOK ∧ result ≠ KNOT_ERANGE
                    ∧ result ≠ KNOT_ENOENT)
    then update_zone_fail result new_content old_zone new_zone
    else
      emit (EvDiffAndSign new_zone new_content);;
      let result := zones_do_diff_and_sign E conf nz new_content in
      if bool_decide (result ≠ KNOT_EOK)
      then update_zone_fail result new_content old_zone new_zone
      else
        nz ← get_zone new_zone;
        put_zone new_zone (set_server nz (ns_data ns));;
        emit (EvScheduleSync new_zone (c_dbsync_timeout conf));;
        nz ← get_zone new_zone;
        match z_contents nz with
        | None => update_zone_fail result new_content old_zone new_zone
        | Some new_contents =>
          emit (EvLoadNsec3param new_contents);;
          zc ← get_zcontents new_contents;
          let result := zc_nsec3param zc in
          if bool_decide (result ≠ KNOT_EOK)
          then update_zone_fail result new_content old_zone new_zone
          else
            (if zc_signed zc then
               if bool_decide (ns_edns_payload ns < EDNS_MIN_DNSSEC_PAYLOAD E)
               then emit (EvWarnEdns (c_name conf))
               else mret tt
             else mret tt);;
            update_zone_fail result new_content old_zone new_zone
        end
  end.

(** ** zone_freeze *)

Definition zone_freeze (zone : option zone_ptr) : M unit :=
  match zone with
  | None => mret tt
  | Some z =>
    emit (EvFreeze z);;
    emit (EvResetTimers z);;
    (* zone->ixfr_db *)
    _ ← get_zone z;
    mret tt
  end.

(** ** zone_loader_thread

    The context of the threaded loader ([zone_loader_ctx_t]) points to the
    configuration, the name server and the new database.  The threads take
    configurations from the zone list of the configuration and insert into
    the new database: these two shared objects are passed from one thread
    to the next, beside the thread, and the context holds the name
    server.  The lock of the context has no counterpart, as the threads
    run one after the other. *)

Record zone_loader_ctx_t : Type := {
  ctx_ns : knot_nameserver_t
}.

(** A thread of the unit: [thread->data] is the context, or NULL. *)
Record dthread_t : Type := {
  data : option zone_loader_ctx_t
}.

(** The loop of [zone_loader_thread]: the thread takes zone configurations
    from the head of the shared list until the list is empty.  The result
    carries what is left of the list and the new database. *)
Fixpoint zone_loader_thread_loop (ns : knot_nameserver_t)
    (config_zones : list conf_zone_t) (db_new : gmap string nat)
  : M (knot_error * list conf_zone_t * gmap string nat) :=
  match config_zones with
  | [] => mret (KNOT_EOK, [], db_new)
  | zone_config :: rest =>
    match knot_dname_from_str E (c_name zone_config) with
    | None => mret (KNOT_ENOMEM, rest, db_new)
    | Some apex =>
      let old_zone := knot_zonedb_find (zone_db ns) apex in
      zone_freeze old_zone;;
      updated ← update_zone old_zone zone_config ns;
      db ←
        match updated with
        | (KNOT_EOK, Some zone) =>
          inserted ← knot_zonedb_insert db_new zone;
          match inserted with
          | (KNOT_EOK, db) => mret db
          | (_, db) =>
            emit (EvInsertFailed (c_name zone_config));;
            z ← get_zone zone;
            recycled ←
              match old_zone with
              | None => mret false
              | Some oz =>
                o ← get_zone oz;
                mret (bool_decide (z_contents o = z_contents z))
              end;
            (if recycled : bool then
               match old_zone with
               | None => undefined
               | Some oz =>
                 o ← get_zone oz;
                 match z_contents o with
                 | None => undefined
                 | Some c =>
                   zc ← get_zcontents c;
                   put_zcontents c (set_zc_zone zc (Some oz));;
                   put_zone zone (set_contents z None)
                 end
               end
             else mret tt);;
            zone_deep_free zone;;
            mret db
          end
        | (KNOT_EOK, None) => undefined
        | _ =>
          emit (EvConfFree (c_name zone_config));;
          mret db_new
        end;
      zone_loader_thread_loop ns rest db
    end
  end.

(** The thread entry point: a NULL thread or a thread without data is
    refused with KNOT_EINVAL before anything is touched. *)
Definition zone_loader_thread (thread : option dthread_t)
    (config_zones : list conf_zone_t) (db_new : gmap string nat)
  : M (knot_error * list conf_zone_t * gmap string nat) :=
  match thread with
  | None => mret (KNOT_EINVAL, config_zones, db_new)
  | Some t =>
    match data t with
    | None => mret (KNOT_EINVAL, config_zones, db_new)
    | Some ctx => zone_loader_thread_loop (ctx_ns ctx) config_zones db_new
    end
  end.

(** The thread unit of [dt_create], [dt_start] and [dt_join]: every thread
    of the unit is given the same data; the threads share the list and the
    new database under the lock of the context; here they run one after
    the other, each until it returns. *)
Fixpoint dt_run (thread_count : nat) (thread : option dthread_t)
    (config_zones : list conf_zone_t) (db_new : gmap string nat)
  : M (list conf_zone_t * gmap string nat) :=
  match thread_count with
  | O => mret (config_zones, db_new)
  | S n =>
    r ← zone_loader_thread thread config_zones db_new;
    dt_run n thread r.1.2 r.2
  end.

(** ** load_zonedb *)

Definition load_zonedb (ns : knot_nameserver_t) (conf : conf_t)
  : M (option (gmap string nat)) :=
  let ctx := {| ctx_ns := ns |} in
  if negb (knot_zonedb_new_ok E) then mret None
  else if bool_decide (zones_count conf = 0%nat) then mret (Some ∅)
  else if negb (pthread_mutex_init_ok E) then mret None
  else
    let thread_count := Nat.min (zones_count conf) (dt_optimal_size E) in
    if dt_create_ok E then
      r ← dt_run thread_count (Some {| data := Some ctx |}) (zones conf) ∅;
      mret (Some r.2)
    else mret None.

(** ** remove_zones *)

Definition remove_zones_step (db_old : gmap string nat) (new_zone : zone_ptr)
  : M (gmap string nat) :=
  z ← get_zone new_zone;
  let zone_name := z_name z in
  let old_zone := knot_zonedb_find (Some db_old) zone_name in
  if bool_decide (old_zone = Some new_zone)
  then mret (delete zone_name db_old)
  else mret db_old.

Fixpoint remove_zones_iter (it : list (string * nat)) (db_old : gmap string nat)
  : M (gmap string nat) :=
  match it with
  | [] => mret db_old
  | (_, new_zone) :: it' =>
    db ← remove_zones_step db_old new_zone;
    remove_zones_iter it' db
  end.

Definition remove_zones (db_new db_old : gmap string nat)
  : M (knot_error * gmap string nat) :=
  db ← remove_zones_iter (map_to_list db_new) db_old;
  mret (KNOT_EOK, db).

(** ** zones_update_db_from_config

    [conf] and [ns] may be NULL; [db_old] is what the caller's variable
    holds.  The result is the returned code, the name server and the
    caller's variable after the call. *)

Definition zones_update_db_from_config (conf : option conf_t)
    (ns : option knot_nameserver_t) (db_old : option (gmap string nat))
  : M (knot_error * option knot_nameserver_t * option (gmap string nat)) :=
  match conf, ns with
  | Some conf, Some ns =>
    match zone_db ns with
    | None => mret (KNOT_ENOENT, Some ns, db_old)
    | Some old =>
      loaded ← load_zonedb ns conf;
      match loaded with
      | None => mret (KNOT_ENOMEM, Some ns, db_old)
      | Some db_new =>
        (* *db_old = ns->zone_db; rcu_xchg_pointer(&ns->zone_db, db_new) *)
        let ns' := set_zone_db ns (Some db_new) in
        r ← remove_zones db_new old;
        if bool_decide (r.1 ≠ KNOT_EOK)
        then mret (r.1, Some ns', Some r.2)
        else mret (KNOT_EOK, Some ns', Some r.2)
      end
    end
  | _, _ => mret (KNOT_EINVAL, ns, db_old)
  end.

End ZoneLoad.

(** The thread that [load_zonedb] starts on the context of the name server
    [ns]. *)
Definition loader_thread (ns : knot_nameserver_t) : option dthread_t :=
  Some {| data := Some {| ctx_ns := ns |} |}.

(** ** The pipeline of update_zone in closed form

    What [update_zone] does once the zone has been created, as a function
    of the answers of the collaborators: the flag passed to the signer,
    the result code and the calls made.  The proofs relate [update_zone]
    to these. *)

Definition add_trace (s : state) (evs : list event) : state :=
  {| zone_heap := zone_heap s; contents_heap := contents_heap s;
     next_ptr := next_ptr s; trace := trace s ++ evs |}.

Definition new_content_of (s : state) (old_zone : option zone_ptr) (nz : zone_t)
  : bool :=
  match old_zone with
  | None => true
  | Some oz =>
    match zone_heap s !! oz with
    | Some o => negb (bool_decide (z_contents o = z_contents nz))
    | None => true
    end
  end.

Definition journal_tolerated (r : knot_error) : bool :=
  bool_decide (r = KNOT_EOK \/ r = KNOT_ERANGE \/ r = KNOT_ENOENT).

Definition pipeline_result (E : externals) (conf : conf_zone_t) (nz : zone_t)
    (new_content : bool) (zc : option knot_zone_contents_t) : knot_error :=
  let journal := zones_journal_apply E nz in
  if journal_tolerated journal then
    let sign := zones_do_diff_and_sign E conf nz new_content in
    if bool_decide (sign = KNOT_EOK) then
      match zc with
      | Some c => zc_nsec3param c
      | None => KNOT_EOK
      end
    else sign
  else journal.

Definition pipeline_calls (E : externals) (conf : conf_zone_t)
    (ns : knot_nameserver_t) (new_zone : zone_ptr) (nz : zone_t)
    (new_content : bool) (zc : option knot_zone_contents_t) : list event :=
  EvJournalApply new_zone ::
  if journal_tolerated (zones_journal_apply E nz) then
    EvDiffAndSign new_zone new_content ::
    if bool_decide (zones_do_diff_and_sign E conf nz new_content = KNOT_EOK) then
      EvScheduleSync new_zone (c_dbsync_timeout conf) ::
      match z_contents nz, zc with
      | Some new_contents, Some c =>
        EvLoadNsec3param new_contents ::
        if bool_decide (zc_nsec3param c = KNOT_EOK) && zc_signed c
           && bool_decide (ns_edns_payload ns < EDNS_MIN_DNSSEC_PAYLOAD E)
        then [EvWarnEdns (c_name conf)]
        else []
      | _, _ => []
      end
    else []
  else [].

(** ** Properties as the specification words them

    They are compared with the code below. *)



(** NSEC3PARAM is validated before the sync timer is scheduled. *)
Definition validation_before_schedule (tr : list event) : Prop :=
  forall i j z t c,
    tr !! i = Some (EvScheduleSync z t) ->
    tr !! j = Some (EvLoadNsec3param c) -> (j < i)%nat.

(** A reload in which an insertion into the new database failed does not
    succeed. *)
Definition insert_failure_is_fatal (E : externals) (conf : conf_t)
    (ns : knot_nameserver_t) (s : state) : Prop :=
  forall r ns' db_old s' name,
    zones_update_db_from_config E (Some conf) (Some ns) None s
      = Some (r, ns', db_old, s') ->
    EvInsertFailed name ∈ trace s' -> r <> KNOT_EOK.

(** ** A test bed: three zones *)

Module Scenario.

Definition dname_of (s : string) : option string := Some s.

(** The collaborators of the test bed: the files a.zone and b.zone exist,
    the journal has nothing to apply, the parser accepts every file; the
    result of the signer and the apex name found by the parser vary. *)
Definition test_externals (sign : knot_error) (apex_of : conf_zone_t -> string)
  : externals := {|
  stat := fun f => if bool_decide (f = "a.zone") then Some 100
                   else if bool_decide (f = "b.zone") then Some 250
                   else None;
  knot_dname_from_str := dname_of;
  knot_dname_cmp := fun a b => if bool_decide (Some a = b) then 0 else 1;
  zone_new_ok := fun _ => true;
  knot_zload_open := fun _ => KNOT_EOK;
  knot_zload_load := fun c =>
    Some {| p_name := apex_of c; p_serial := 2; p_nsec3param := KNOT_EOK;
            p_signed := false |};
  zones_journal_apply := fun _ => KNOT_ERANGE;
  zones_do_diff_and_sign := fun _ _ _ => sign;
  EDNS_MIN_DNSSEC_PAYLOAD := 1220;
  knot_zonedb_new_ok := true;
  pthread_mutex_init_ok := true;
  dt_optimal_size := 2;
  dt_create_ok := true
|}.

Definition E0 : externals := test_externals KNOT_EOK c_name.
Definition E_sign_fails : externals := test_externals KNOT_DNSSEC_ENOKEY c_name.
Definition E_wrong_origin : externals :=
  test_externals KNOT_EOK (fun _ => "other.").

Definition conf_a : conf_zone_t :=
  {| c_name := "a."; c_file := "a.zone"; c_acl_xfr_in := [];
     c_dbsync_timeout := 0 |}.
Definition conf_b : conf_zone_t :=
  {| c_name := "b."; c_file := "b.zone"; c_acl_xfr_in := [];
     c_dbsync_timeout := 0 |}.
Definition conf_c : conf_zone_t :=
  {| c_name := "c."; c_file := "c.zone"; c_acl_xfr_in := ["master"];
     c_dbsync_timeout := 0 |}.

Definition conf0 : conf_t :=
  {| zones := [conf_a; conf_b; conf_c]; zones_count := 3 |}.

(** A configuration that names zone b. twice. *)
Definition conf_dup : conf_t :=
  {| zones := [conf_b; conf_b; conf_c]; zones_count := 3 |}.

(** The store before the reload: zones a. and b. loaded from their files
    (b.zone has changed since), zone c. bootstrapped earlier. *)
Definition s0 : state := {|
  zone_heap :=
    <[1%nat := {| z_name := "a."; z_contents := Some 2%nat;
                  zonefile_mtime := 100; zonefile_serial := 1;
                  z_server := Some 0%nat; z_conf := conf_a |}]>
    (<[3%nat := {| z_name := "b."; z_contents := Some 4%nat;
                   zonefile_mtime := 200; zonefile_serial := 1;
                   z_server := Some 0%nat; z_conf := conf_b |}]>
    (<[5%nat := {| z_name := "c."; z_contents := None;
                   zonefile_mtime := 0; zonefile_serial := 0;
                   z_server := Some 0%nat; z_conf := conf_c |}]> ∅));
  contents_heap :=
    <[2%nat := {| zc_zone := Some 1%nat; zc_serial := 1;
                  zc_nsec3param := KNOT_EOK; zc_signed := false |}]>
    (<[4%nat := {| zc_zone := Some 3%nat; zc_serial := 1;
                   zc_nsec3param := KNOT_EOK; zc_signed := false |}]> ∅);
  next_ptr := 6;
  trace := []
|}.

Definition db0 : gmap string nat :=
  <["a." := 1%nat]> (<["b." := 3%nat]> (<["c." := 5%nat]> ∅)).

Definition ns0 : knot_nameserver_t :=
  {| zone_db := Some db0; ns_data := Some 0%nat; ns_edns_payload := 4096 |}.


(** A configuration whose zone count is zero although its list is not
    empty. *)
Definition conf_uncounted : conf_t :=
  {| zones := [conf_a]; zones_count := 0 |}.

(** A buffer of six bytes. *)
Definition wire0 : list byte := [x12; x34; x56; x78; x9a; xbc].

End Scenario.

(** ** dnslib/utils.h: data in wire format

    The inline functions that read and write 16-bit and 32-bit values.  A
    buffer is a list of bytes and [pos] an offset into it; an access beyond
    the end of the buffer has no result.  The shifts and the bitwise
    operations are taken on integers, and the conversion to the result
    type wraps. *)

(** The value of a [uint8_t]. *)
Definition uint8_value (b : byte) : Z := Z.of_N (Byte.to_N b).

(** The conversions to [uint8_t], [uint16_t] and [uint32_t]. *)
Definition to_uint8 (x : Z) : byte :=
  match Byte.of_N (Z.to_N (x mod 2 ^ 8)) with
  | Some b => b
  | None => "000"%byte
  end.
Definition to_uint16 (x : Z) : Z := x mod 2 ^ 16.
Definition to_uint32 (x : Z) : Z := x mod 2 ^ 32.

(** [knot_wire_read_u16]: (pos[0] << 8) | pos[1]. *)
Definition knot_wire_read_u16 (buf : list byte) (pos : nat) : option Z :=
  p0 ← buf !! pos;
  p1 ← buf !! (pos + 1)%nat;
  Some (to_uint16 (Z.lor (Z.shiftl (uint8_value p0) 8) (uint8_value p1))).

(** [knot_wire_read_u32]:
    (pos[0] << 24) | (pos[1] << 16) | (pos[2] << 8) | pos[3]. *)
Definition knot_wire_read_u32 (buf : list byte) (pos : nat) : option Z :=
  p0 ← buf !! pos;
  p1 ← buf !! (pos + 1)%nat;
  p2 ← buf !! (pos + 2)%nat;
  p3 ← buf !! (pos + 3)%nat;
  Some (to_uint32
          (Z.lor (Z.lor (Z.lor (Z.shiftl (uint8_value p0) 24)
                               (Z.shiftl (uint8_value p1) 16))
                        (Z.shiftl (uint8_value p2) 8))
                 (uint8_value p3))).

(** [knot_wire_write_u16]: pos[0] = (uint8_t)((data >> 8) & 0xff);
    pos[1] = (uint8_t)(data & 0xff). *)
Definition knot_wire_write_u16 (buf : list byte) (pos : nat) (data : Z)
  : option (list byte) :=
  if decide (pos + 1 < length buf)%nat then
    Some (<[(pos + 1)%nat := to_uint8 (Z.land data 255)]>
            (<[pos := to_uint8 (Z.land (Z.shiftr data 8) 255)]> buf))
  else None.

(** [knot_wire_write_u32]: the four bytes of [data], the most significant
    first. *)
Definition knot_wire_write_u32 (buf : list byte) (pos : nat) (data : Z)
  : option (list byte) :=
  if decide (pos + 3 < length buf)%nat then
    Some (<[(pos + 3)%nat := to_uint8 (Z.land data 255)]>
            (<[(pos + 2)%nat := to_uint8 (Z.land (Z.shiftr data 8) 255)]>
               (<[(pos + 1)%nat := to_uint8 (Z.land (Z.shiftr data 16) 255)]>
                  (<[pos := to_uint8 (Z.land (Z.shiftr data 24) 255)]> buf))))
  else None.


(** ** Proof support *)

#[local] Set Warnings "-clear-no-such-hyp".

Lemma bind_run {A B} (m : M A) (k : A -> M B) (s : state) :
  (m ≫= k) s = match m s with
               | Some (a, s') => k a s'
               | None => None
               end.
Proof. reflexivity. Qed.

Lemma ret_run {A} (a : A) (s : state) : @mret M _ A a s = Some (a, s).
Proof. reflexivity. Qed.

Lemma get_zone_run p z s :
  zone_heap s !! p = Some z -> get_zone p s = Some (z, s).
Proof. intros H. unfold get_zone. by rewrite H. Qed.

Lemma wf_zone_fresh s : wf_state s -> zone_heap s !! next_ptr s = None.
Proof.
  intros [Hz _]. destruct (zone_heap s !! next_ptr s) eqn:Hl; [|done].
  apply Hz in Hl. simpl in Hl. lia.
Qed.

Lemma wf_contents_fresh_ge s p :
  wf_state s -> (next_ptr s <= p)%nat -> contents_heap s !! p = None.
Proof.
  intros [_ Hc] Hp. destruct (contents_heap s !! p) eqn:Hl; [|done].
  apply Hc in Hl. simpl in Hl. lia.
Qed.

Lemma wf_zone_lt s p z : wf_state s -> zone_heap s !! p = Some z -> (p < next_ptr s)%nat.
Proof. intros [Hz _] Hl. by apply Hz in Hl. Qed.

Section Classifier.

Variable E : externals.

(** C6. For every previous zone (possibly none) and file name, the
    classifier returns NOT_FOUND exactly when stat fails, otherwise
    FOUND_NEW exactly when there is no previous zone, otherwise
    FOUND_CURRENT exactly when the recorded modification time of the
    previous zone equals that of the file, otherwise FOUND_UPDATED; and it
    leaves the store as it found it. *)
Theorem zone_file_status_classifies (old_zone : option zone_ptr)
    (filename : string) (s : state)
    (Hold : forall oz, old_zone = Some oz -> is_Some (zone_heap s !! oz)) :
  exists st, zone_file_status E old_zone filename s = Some (st, s) /\
    (st = ZONE_STATUS_NOT_FOUND <-> stat E filename = None) /\
    (st = ZONE_STATUS_FOUND_NEW <->
       is_Some (stat E filename) /\ old_zone = None) /\
    (st = ZONE_STATUS_FOUND_CURRENT <->
       exists oz z, old_zone = Some oz /\ zone_heap s !! oz = Some z /\
                    stat E filename = Some (zonefile_mtime z)) /\
    (st = ZONE_STATUS_FOUND_UPDATED <->
       exists oz z m, old_zone = Some oz /\ zone_heap s !! oz = Some z /\
                      stat E filename = Some m /\ zonefile_mtime z <> m).
Proof.
  unfold zone_file_status.
  destruct (stat E filename) as [m|] eqn:Hstat.
  - destruct old_zone as [oz|].
    + destruct (Hold oz eq_refl) as [z Hz].
      rewrite bind_run, (get_zone_run _ _ _ Hz).
      case_bool_decide as Hm.
      * eexists; split; [reflexivity|]. naive_solver.
      * eexists; split; [reflexivity|]. naive_solver.
    + eexists; split; [reflexivity|]. naive_solver.
  - eexists; split; [reflexivity|]. naive_solver.
Qed.

End Classifier.

Ltac fields :=
  cbn [zone_heap contents_heap next_ptr trace
       z_name z_contents zonefile_mtime zonefile_serial z_server z_conf
       zc_zone zc_serial zc_nsec3param zc_signed
       set_contents set_server set_zonefile set_zc_zone zone_init
       contents_of_parsed fst snd negb andb].

Ltac heap_step :=
  first [ rewrite lookup_insert_eq
        | rewrite insert_insert_eq
        | rewrite lookup_insert_ne by (done || lia)
        | rewrite lookup_delete_eq
        | rewrite lookup_delete_ne by (done || lia)
        | match goal with
          | H : ?h !! ?p = _ |- context [?h !! ?p] => rewrite H
          end ].

Ltac run :=
  repeat progress
    (fields; repeat heap_step;
     unfold get_zone, put_zone, get_zcontents, put_zcontents, alloc_zone,
       alloc_zcontents, free_zone, free_zcontents, emit, undefined;
     rewrite ?bind_run, ?ret_run; fields).

Section Builders.

Variable E : externals.

Lemma zone_new_run conf n s :
  zone_new_ok E conf = true ->
  knot_dname_from_str E (c_name conf) = Some n ->
  zone_new E conf s =
    Some (Some (next_ptr s),
          {| zone_heap := <[next_ptr s := zone_init n conf]> (zone_heap s);
             contents_heap := contents_heap s;
             next_ptr := S (next_ptr s);
             trace := trace s |}).
Proof. intros Hok Hn. unfold zone_new. rewrite Hok, Hn. by run. Qed.



Lemma zload_load_run conf pz s :
  knot_zload_load E conf = Some pz ->
  zload_load E conf s =
    Some (Some (next_ptr s),
          {| zone_heap :=
               <[next_ptr s := set_contents (zone_init (p_name pz) conf)
                                 (Some (S (next_ptr s)))]> (zone_heap s);
             contents_heap :=
               <[S (next_ptr s) := contents_of_parsed pz (next_ptr s)]>
                 (contents_heap s);
             next_ptr := S (S (next_ptr s));
             trace := trace s |}).
Proof. intros Hl. unfold zload_load. rewrite Hl. by run. Qed.

Lemma load_zone_mismatch_run conf pz s :
  knot_zload_open E conf = KNOT_EOK ->
  knot_zload_load E conf = Some pz ->
  knot_dname_cmp E (p_name pz) (knot_dname_from_str E (c_name conf)) <> 0 ->
  load_zone E conf s =
    Some (None,
          {| zone_heap := delete (next_ptr s) (zone_heap s);
             contents_heap := delete (S (next_ptr s)) (contents_heap s);
             next_ptr := S (S (next_ptr s));
             trace := trace s |}).
Proof.
  intros Hopen Hl Hcmp. unfold load_zone. rewrite Hopen.
  rewrite bind_run, (zload_load_run _ _ _ Hl). run.
  rewrite bool_decide_eq_true_2 by done.
  unfold zone_deep_free. run.
  by rewrite !delete_insert_eq.
Qed.

Lemma load_zone_match_run conf pz m s :
  knot_zload_open E conf = KNOT_EOK ->
  knot_zload_load E conf = Some pz ->
  knot_dname_cmp E (p_name pz) (knot_dname_from_str E (c_name conf)) = 0 ->
  stat E (c_file conf) = Some m ->
  load_zone E conf s =
    Some (Some (next_ptr s),
          {| zone_heap :=
               <[next_ptr s :=
                   set_zonefile (set_contents (zone_init (p_name pz) conf)
                                   (Some (S (next_ptr s)))) m (p_serial pz)]>
                 (zone_heap s);
             contents_heap :=
               <[S (next_ptr s) := contents_of_parsed pz (next_ptr s)]>
                 (contents_heap s);
             next_ptr := S (S (next_ptr s));
             trace := trace s |}).
Proof.
  intros Hopen Hl Hcmp Hst. unfold load_zone. rewrite Hopen.
  rewrite bind_run, (zload_load_run _ _ _ Hl). run.
  rewrite bool_decide_eq_false_2 by (intros ?; done).
  rewrite Hst. unfold knot_zone_serial. by run.
Qed.

(** What the classifier has seen on the paths that load the file. *)
Lemma zone_file_status_found old_zone filename s st s' :
  zone_file_status E old_zone filename s = Some (st, s') ->
  st <> ZONE_STATUS_NOT_FOUND ->
  exists m, stat E filename = Some m.
Proof.
  unfold zone_file_status. destruct (stat E filename) as [m|]; [eauto|].
  rewrite ret_run. intros [= <- <-]. done.
Qed.

Lemma create_zone_post old_zone conf ns s new_zone s1 :
  wf_state s ->
  (forall oz, old_zone = Some oz -> is_Some (zone_heap s !! oz)) ->
  create_zone E old_zone conf ns s = Some (Some new_zone, s1) ->
  new_zone = next_ptr s /\ old_zone <> Some new_zone /\
  (forall oz, old_zone = Some oz -> zone_heap s1 !! oz = zone_heap s !! oz) /\
  exists nz, zone_heap s1 !! new_zone = Some nz /\ z_server nz = ns_data ns /\
    match z_contents nz with
    | Some c => is_Some (contents_heap s1 !! c)
    | None => True
    end.
Proof.
  intros Hwf Hold.
  assert (Hne : old_zone <> Some (next_ptr s)).
  { intros ->. destruct (Hold _ eq_refl) as [z Hz].
    apply (wf_zone_lt _ _ _ Hwf) in Hz. lia. }
  assert (Hne' : forall oz, old_zone = Some oz -> next_ptr s <> oz) by congruence.
  assert (Hload : forall s',
    (load_zone E conf ≫= λ created : option nat,
       match created with
       | Some nz0 =>
         get_zone nz0 ≫= λ z, put_zone nz0 (set_server z (ns_data ns))
           ≫= λ _, emit (EvResetTimers nz0) ≫= λ _, mret (Some nz0)
       | None => mret None
       end) s = Some (Some new_zone, s') ->
    new_zone = next_ptr s /\
    (forall oz, old_zone = Some oz -> zone_heap s' !! oz = zone_heap s !! oz) /\
    exists nz, zone_heap s' !! new_zone = Some nz /\ z_server nz = ns_data ns /\
      match z_contents nz with
      | Some c => is_Some (contents_heap s' !! c)
      | None => True
      end).
  { intros s'. unfold load_zone.
    destruct (knot_zload_open E conf); run; try done.
    unfold zload_load. destruct (knot_zload_load E conf) as [pz|]; run; [|done].
    case_bool_decide; unfold zone_deep_free, knot_zone_serial; run; [done|].
    destruct (stat E (c_file conf)); run; [|done].
    intros [= <- <-]. run. split_and!; [done| |].
    - intros oz Hoz. specialize (Hne' _ Hoz). by run.
    - eexists. split_and!; [done|done|]. run. eauto. }
  unfold create_zone, zone_file_status.
  destruct (stat E (c_file conf)) as [m|] eqn:Hst.
  2: { run. unfold bootstrap_zone, zone_new.
       destruct (c_acl_xfr_in conf); cbn [EMPTY_LIST]; run; [done|].
       destruct (zone_new_ok E conf); run; [|done].
       destruct (knot_dname_from_str E (c_name conf)); run; [|done].
       intros [= <- <-]. run. split_and!; [done|done| |].
       - intros oz Hoz. specialize (Hne' _ Hoz). by run.
       - eexists. split_and!; done. }
  destruct old_zone as [oz|].
  2: { run. intros Hrun. apply Hload in Hrun as (-> & ? & ?). done. }
  destruct (Hold _ eq_refl) as [o Ho]. run.
  case_bool_decide; run.
  2: { intros Hrun. apply Hload in Hrun as (-> & ? & ?). done. }
  unfold preserve_zone, zone_new.
  destruct (zone_new_ok E conf); run; [|done].
  destruct (knot_dname_from_str E (c_name conf)); run; [|done].
  specialize (Hne' _ eq_refl). run.
  destruct (z_contents o) as [c|]; run; [|done].
  destruct (contents_heap s !! c) as [zc|] eqn:Hzc; run; [|done].
  intros [= <- <-]. run. split_and!; [done|done| |].
  - intros ? [= <-]. by run.
  - eexists. split_and!; [done|done|]. run. eauto.
Qed.

End Builders.

Section Pipeline.

Variable E : externals.

Lemma update_zone_fail_ok new_content old_zone new_zone s :
  update_zone_fail KNOT_EOK new_content old_zone new_zone s =
    Some (KNOT_EOK, Some new_zone, s).
Proof. reflexivity. Qed.

Lemma update_zone_fail_fresh result old_zone new_zone nz s :
  result <> KNOT_EOK ->
  zone_heap s !! new_zone = Some nz ->
  match z_contents nz with
  | Some c => is_Some (contents_heap s !! c)
  | None => True
  end ->
  update_zone_fail result true old_zone new_zone s =
    Some (result, None,
          {| zone_heap := delete new_zone (zone_heap s);
             contents_heap :=
               match z_contents nz with
               | Some c => delete c (contents_heap s)
               | None => contents_heap s
               end;
             next_ptr := next_ptr s;
             trace := trace s |}).
Proof.
  intros Hr Hnz Hc. unfold update_zone_fail, zone_deep_free.
  rewrite bool_decide_eq_false_2 by done. run.
  destruct (z_contents nz) as [c|]; run; [|done].
  destruct Hc as [zc Hzc]. by run.
Qed.

Lemma update_zone_fail_recycled result oz o c zc new_zone nz s :
  result <> KNOT_EOK ->
  zone_heap s !! oz = Some o ->
  z_contents o = Some c ->
  contents_heap s !! c = Some zc ->
  zone_heap s !! new_zone = Some nz ->
  update_zone_fail result false (Some oz) new_zone s =
    Some (result, None,
          {| zone_heap := delete new_zone (zone_heap s);
             contents_heap := <[c := set_zc_zone zc (Some oz)]> (contents_heap s);
             next_ptr := next_ptr s;
             trace := trace s |}).
Proof.
  intros Hr Ho Hc Hzc Hnz. unfold update_zone_fail, zone_deep_free.
  rewrite bool_decide_eq_false_2 by done. run. rewrite Hc. run.
  by rewrite delete_insert_eq.
Qed.

Lemma journal_tolerated_spec r :
  bool_decide (r <> KNOT_EOK /\ r <> KNOT_ERANGE /\ r <> KNOT_ENOENT)
  = negb (journal_tolerated r).
Proof. by destruct r. Qed.

Lemma update_zone_run old_zone conf ns s s1 new_zone nz :
  create_zone E old_zone conf ns s = Some (Some new_zone, s1) ->
  zone_heap s1 !! new_zone = Some nz ->
  z_server nz = ns_data ns ->
  match old_zone with
  | Some oz => is_Some (zone_heap s1 !! oz)
  | None => True
  end ->
  match z_contents nz with
  | Some c => is_Some (contents_heap s1 !! c)
  | None => True
  end ->
  let new_content := new_content_of s1 old_zone nz in
  let zc := z_contents nz ≫= (contents_heap s1 !!.) in
  update_zone E old_zone conf ns s =
    update_zone_fail (pipeline_result E conf nz new_content zc) new_content
      old_zone new_zone
      (add_trace s1 (pipeline_calls E conf ns new_zone nz new_content zc)).
Proof.
  intros Hcreate Hnz Hsrv Hold Hc new_content zc.
  assert (Hid : <[new_zone := set_server nz (ns_data ns)]> (zone_heap s1)
                = zone_heap s1).
  { apply insert_id. rewrite Hnz, <- Hsrv. by destruct nz. }
  unfold update_zone. rewrite bind_run, Hcreate.
  assert (Hnc : new_content = new_content_of s1 old_zone nz) by done.
  clearbody new_content. unfold new_content_of in Hnc.
  assert (Hzc : zc = match z_contents nz with
                     | Some c => contents_heap s1 !! c
                     | None => None
                     end) by (subst zc; by destruct (z_contents nz)).
  clearbody zc.
  destruct old_zone as [oz|]; [destruct Hold as [o Ho]; rewrite Ho in Hnc|];
    run; rewrite <- Hnc.
  all: unfold pipeline_result, pipeline_calls, add_trace.
  all: rewrite journal_tolerated_spec.
  all: destruct (journal_tolerated (zones_journal_apply E nz)); fields; [|done].
  all: run.
  all: destruct (decide (zones_do_diff_and_sign E conf nz new_content = KNOT_EOK))
         as [Hs|Hs];
       [ rewrite (bool_decide_eq_false_2 (_ <> _)) by (intros ?; done);
         rewrite (bool_decide_eq_true_2 (_ = _)) by done
       | rewrite (bool_decide_eq_true_2 (_ <> _)) by done;
         rewrite (bool_decide_eq_false_2 (_ = _)) by done;
         rewrite <- !app_assoc; reflexivity ].
  all: run; rewrite ?Hid.
  all: destruct (z_contents nz) as [c|]; subst zc;
       [ destruct Hc as [zc0 Hzc0]; rewrite Hzc0; run
       | rewrite Hs, <- !app_assoc; reflexivity ].
  all: destruct (decide (zc_nsec3param zc0 = KNOT_EOK)) as [Hn|Hn];
       [ rewrite (bool_decide_eq_false_2 (_ <> _)) by (intros ?; done);
         rewrite (bool_decide_eq_true_2 (_ = _)) by done
       | rewrite (bool_decide_eq_true_2 (_ <> _)) by done;
         rewrite (bool_decide_eq_false_2 (_ = _)) by done;
         fields; rewrite <- !app_assoc; reflexivity ].
  all: fields; destruct (zc_signed zc0);
       [destruct (bool_decide (ns_edns_payload ns < EDNS_MIN_DNSSEC_PAYLOAD E))|];
       run; rewrite <- ?app_assoc; reflexivity.
Qed.

(** The code after [fail] always has a result on a store where the new
    zone, its contents and the old zone are allocated, unless it is reached
    with a failure while the old and the new zone both have no contents. *)
Lemma update_zone_fail_run r old_zone new_zone nz s :
  zone_heap s !! new_zone = Some nz ->
  match old_zone with
  | Some oz => is_Some (zone_heap s !! oz)
  | None => True
  end ->
  match z_contents nz with
  | Some c => is_Some (contents_heap s !! c)
  | None => True
  end ->
  (r <> KNOT_EOK ->
   new_content_of s old_zone nz = false -> is_Some (z_contents nz)) ->
  exists dst s',
    update_zone_fail r (new_content_of s old_zone nz) old_zone new_zone s
      = Some (r, dst, s') /\
    trace s' = trace s /\ next_ptr s' = next_ptr s /\
    (r = KNOT_EOK -> dst = Some new_zone /\ s' = s) /\
    (r <> KNOT_EOK ->
       dst = None /\ zone_heap s' = delete new_zone (zone_heap s) /\
       contents_heap s' =
         match z_contents nz with
         | None => contents_heap s
         | Some c =>
           if new_content_of s old_zone nz then delete c (contents_heap s)
           else match old_zone, contents_heap s !! c with
                | Some oz, Some zc =>
                  <[c := set_zc_zone zc (Some oz)]> (contents_heap s)
                | _, _ => contents_heap s
                end
         end).
Proof.
  intros Hnz Hold Hc Hshared.
  destruct (decide (r = KNOT_EOK)) as [->|Hr].
  { rewrite update_zone_fail_ok. eexists _, _. split_and!; done. }
  destruct (new_content_of s old_zone nz) eqn:Hnc.
  - rewrite (update_zone_fail_fresh r old_zone new_zone nz s) by done.
    eexists _, _. split_and!; try done.
  - destruct (Hshared Hr eq_refl) as [c Hcn]. rewrite Hcn in Hc.
    destruct Hc as [zc Hzc]. unfold new_content_of in Hnc.
    destruct old_zone as [oz|]; [|done].
    destruct Hold as [o Ho]. rewrite Ho in Hnc.
    apply negb_false_iff, bool_decide_eq_true_1 in Hnc.
    rewrite (update_zone_fail_recycled r oz o c zc new_zone nz s)
      by congruence.
    eexists _, _. split_and!; try done. intros _. fields.
    by rewrite Hcn, Hzc.
Qed.

(** A zone whose update failed leaves the new database as it was and the
    thread goes on with the rest of the list. *)
Lemma zone_loader_thread_failed ns conf rest db apex s0 s r dst s' :
  knot_dname_from_str E (c_name conf) = Some apex ->
  zone_freeze (knot_zonedb_find (zone_db ns) apex) s0 = Some (tt, s) ->
  update_zone E (knot_zonedb_find (zone_db ns) apex) conf ns s
    = Some (r, dst, s') ->
  r <> KNOT_EOK ->
  zone_loader_thread E (loader_thread ns) (conf :: rest) db s0 =
    zone_loader_thread E (loader_thread ns) rest db
      (add_trace s' [EvConfFree (c_name conf)]).
Proof.
  intros Hname Hfreeze Hupd Hr.
  cbn [zone_loader_thread loader_thread data ctx_ns zone_loader_thread_loop]. rewrite Hname.
  rewrite bind_run, Hfreeze, bind_run, Hupd.
  destruct r; try done; run; reflexivity.
Qed.

(** [update_zone] on a zone that has been created: its result, its calls
    and the store it leaves. *)
Lemma update_zone_result old_zone conf ns s new_zone s1 nz :
  wf_state s ->
  (forall oz, old_zone = Some oz -> is_Some (zone_heap s !! oz)) ->
  create_zone E old_zone conf ns s = Some (Some new_zone, s1) ->
  zone_heap s1 !! new_zone = Some nz ->
  (pipeline_result E conf nz (new_content_of s1 old_zone nz)
     (z_contents nz ≫= (contents_heap s1 !!.)) <> KNOT_EOK ->
   new_content_of s1 old_zone nz = false -> is_Some (z_contents nz)) ->
  let new_content := new_content_of s1 old_zone nz in
  let zc := z_contents nz ≫= (contents_heap s1 !!.) in
  let r := pipeline_result E conf nz new_content zc in
  exists dst s',
    update_zone E old_zone conf ns s = Some (r, dst, s') /\
    trace s' = trace s1 ++ pipeline_calls E conf ns new_zone nz new_content zc /\
    next_ptr s' = next_ptr s1 /\
    (r = KNOT_EOK -> dst = Some new_zone /\
       zone_heap s' = zone_heap s1 /\ contents_heap s' = contents_heap s1) /\
    (r <> KNOT_EOK ->
       dst = None /\ zone_heap s' = delete new_zone (zone_heap s1) /\
       contents_heap s' =
         match z_contents nz with
         | None => contents_heap s1
         | Some c =>
           if new_content then delete c (contents_heap s1)
           else match old_zone, contents_heap s1 !! c with
                | Some oz, Some zc =>
                  <[c := set_zc_zone zc (Some oz)]> (contents_heap s1)
                | _, _ => contents_heap s1
                end
         end).
Proof.
  intros Hwf Hold Hcreate Hnz Hshared new_content zc r.
  destruct (create_zone_post E _ _ _ _ _ _ Hwf Hold Hcreate)
    as (Hnew & Hne & Hsame & nz' & Hnz' & Hsrv & Hc).
  assert (nz' = nz) as -> by congruence.
  assert (Hold1 : match old_zone with
                  | Some oz => is_Some (zone_heap s1 !! oz)
                  | None => True
                  end).
  { destruct old_zone as [oz|]; [|done]. rewrite (Hsame _ eq_refl). eauto. }
  rewrite (update_zone_run old_zone conf ns s s1 new_zone nz) by done.
  fold new_content zc r.
  set (s2 := add_trace s1 _).
  destruct (update_zone_fail_run r old_zone new_zone nz s2)
    as (dst & s' & Hrun & Htr & Hnp & Hok & Hfail); try done.
  change (new_content_of s2 old_zone nz) with new_content in *.
  exists dst, s'. split_and!; try done.
  intros Hr. destruct (Hok Hr) as [-> ->]. done.
Qed.

(** C5 (amended). Once the zone is created, the pipeline makes its calls in
    this order: (1) the journal is applied, where the results EOK, ERANGE
    and ENOENT are tolerated and any other result aborts the zone; (2)
    diff-and-sign is called with the new-content flag, and a failure aborts
    the zone; (3) the periodic sync timer of the zone is scheduled; (4)
    last, for a zone that has contents, NSEC3PARAM is loaded, and a failure
    aborts the zone, while an EDNS payload below the DNSSEC minimum on a
    signed zone only adds a warning and leaves the result as it is.  This
    holds for every zone; only the abort of a zone without contents that
    takes the place of a zone without contents is left out: for such a
    zone the statement is about a journal and a signer that do not fail. *)
Theorem update_zone_step_order old_zone conf ns s new_zone s1 nz
    (Hwf : wf_state s)
    (Hold : forall oz, old_zone = Some oz -> is_Some (zone_heap s !! oz))
    (Hcreate : create_zone E old_zone conf ns s = Some (Some new_zone, s1))
    (Hnz : zone_heap s1 !! new_zone = Some nz)
    (Hshared : new_content_of s1 old_zone nz = false -> z_contents nz = None ->
               journal_tolerated (zones_journal_apply E nz) = true /\
               zones_do_diff_and_sign E conf nz false = KNOT_EOK) :
  let new_content := new_content_of s1 old_zone nz in
  let journal := zones_journal_apply E nz in
  let sign := zones_do_diff_and_sign E conf nz new_content in
  exists r dst s' calls,
    update_zone E old_zone conf ns s = Some (r, dst, s') /\
    trace s' = trace s1 ++ EvJournalApply new_zone :: calls /\
    (dst = Some new_zone <-> r = KNOT_EOK) /\
    ((journal <> KNOT_EOK /\ journal <> KNOT_ERANGE /\ journal <> KNOT_ENOENT) /\
       r = journal /\ calls = []
     \/
     (journal = KNOT_EOK \/ journal = KNOT_ERANGE \/ journal = KNOT_ENOENT) /\
     exists calls2,
       calls = EvDiffAndSign new_zone new_content :: calls2 /\
       (sign <> KNOT_EOK /\ r = sign /\ calls2 = []
        \/
        sign = KNOT_EOK /\
        exists calls3,
          calls2 = EvScheduleSync new_zone (c_dbsync_timeout conf) :: calls3 /\
          (z_contents nz = None /\ r = KNOT_EOK /\ calls3 = []
           \/
           exists c zc,
             z_contents nz = Some c /\ contents_heap s1 !! c = Some zc /\
             r = zc_nsec3param zc /\
             calls3 =
               EvLoadNsec3param c ::
               (if bool_decide (zc_nsec3param zc = KNOT_EOK) && zc_signed zc
                   && bool_decide (ns_edns_payload ns < EDNS_MIN_DNSSEC_PAYLOAD E)
                then [EvWarnEdns (c_name conf)]
                else [])))).
Proof.
  intros new_content journal sign.
  assert (Hdefined :
            pipeline_result E conf nz new_content
              (z_contents nz ≫= (contents_heap s1 !!.)) <> KNOT_EOK ->
            new_content = false -> is_Some (z_contents nz)).
  { intros Hr Hf. destruct (z_contents nz) as [c|] eqn:Hcn; [by eauto|].
    exfalso. apply Hr. destruct (Hshared Hf eq_refl) as [Hj Hs].
    unfold pipeline_result. rewrite Hf, Hj, Hs. done. }
  destruct (create_zone_post E _ _ _ _ _ _ Hwf Hold Hcreate)
    as (_ & _ & _ & nz' & Hnz' & _ & Hc).
  assert (nz' = nz) as -> by congruence.
  destruct (update_zone_result old_zone conf ns s new_zone s1 nz)
    as (dst & s' & Hrun & Htr & _ & Hok & Hfail); try done.
  fold new_content in Hrun, Htr, Hok, Hfail.
  set (zc := z_contents nz ≫= (contents_heap s1 !!.)) in *.
  set (r := pipeline_result E conf nz new_content zc) in *.
  eexists r, dst, s', _. split; [exact Hrun|]. split; [exact Htr|].
  split.
  { destruct (decide (r = KNOT_EOK)) as [Hr|Hr].
    - destruct (Hok Hr) as [-> _]. done.
    - destruct (Hfail Hr) as [-> _]. done. }
  subst r. unfold pipeline_result. fold journal sign.
  destruct (journal_tolerated journal) eqn:Hj; unfold journal_tolerated in Hj.
  2: { left. apply bool_decide_eq_false_1 in Hj.
       split_and!; try done; intros ?; apply Hj; auto. }
  right. apply bool_decide_eq_true_1 in Hj. split; [done|].
  eexists. split; [reflexivity|].
  case_bool_decide as Hs; [|left; done].
  right. split; [done|]. eexists. split; [reflexivity|].
  subst zc. destruct (z_contents nz) as [c|]; [|left; done].
  destruct Hc as [zc Hzc]. right. exists c, zc. cbn [mbind option_bind].
  rewrite Hzc. done.
Qed.


End Pipeline.

Section BuilderClaims.

Variable E : externals.


Lemma zone_file_status_not_found old_zone filename s s' :
  zone_file_status E old_zone filename s = Some (ZONE_STATUS_NOT_FOUND, s') ->
  stat E filename = None.
Proof.
  unfold zone_file_status.
  destruct (stat E filename) as [m|]; [|done].
  destruct old_zone as [oz|]; run; [|done].
  destruct (zone_heap s !! oz); run; [|done].
  by case_bool_decide.
Qed.


(** C8. On the NOT_FOUND path a zone is produced exactly when the list of
    transfer-in sources of the configuration is not empty, and that zone
    has no contents; with an empty list nothing is allocated, update_zone
    fails and the thread goes on without an entry for the zone in the new
    database. *)
Theorem create_zone_not_found_bootstraps old_zone conf ns s n
    (Hnf : zone_file_status E old_zone (c_file conf) s
           = Some (ZONE_STATUS_NOT_FOUND, s))
    (Hok : zone_new_ok E conf = true)
    (Hn : knot_dname_from_str E (c_name conf) = Some n) :
  exists created s',
    create_zone E old_zone conf ns s = Some (created, s') /\
    (is_Some created <-> c_acl_xfr_in conf <> []) /\
    (forall zone, created = Some zone ->
       exists z, zone_heap s' !! zone = Some z /\ z_contents z = None /\
                 z_name z = n /\ contents_heap s' = contents_heap s) /\
    (c_acl_xfr_in conf = [] ->
       s' = s /\
       update_zone E old_zone conf ns s = Some (KNOT_EZONENOENT, None, s) /\
       forall s0 rest db,
         knot_zonedb_find (zone_db ns) n = old_zone ->
         zone_freeze old_zone s0 = Some (tt, s) ->
         zone_loader_thread E (loader_thread ns) (conf :: rest) db s0 =
           zone_loader_thread E (loader_thread ns) rest db
             (add_trace s [EvConfFree (c_name conf)])).
Proof.
  pose proof (zone_file_status_not_found _ _ _ _ Hnf) as Hst.
  assert (Hcreate_none : c_acl_xfr_in conf = [] ->
            create_zone E old_zone conf ns s = Some (None, s)).
  { intros Hx. unfold create_zone. rewrite bind_run, Hnf. run.
    unfold bootstrap_zone. rewrite Hx. cbn [EMPTY_LIST]. by run. }
  destruct (c_acl_xfr_in conf) as [|x l] eqn:Hx.
  - exists None, s. split; [by apply Hcreate_none|].
    split; [split; [intros [? ?]; done | done]|].
    split; [done|]. intros _.
    assert (Hupd : update_zone E old_zone conf ns s
                   = Some (KNOT_EZONENOENT, None, s)).
    { unfold update_zone. by rewrite bind_run, Hcreate_none. }
    split_and!; [done|done|].
    intros s0 rest db <- Hfreeze.
    by eapply zone_loader_thread_failed.
  - unfold create_zone. rewrite bind_run, Hnf. run.
    unfold bootstrap_zone. rewrite Hx. cbn [EMPTY_LIST]. run.
    rewrite (zone_new_run E conf n) by done. run.
    eexists _, _. split; [reflexivity|].
    split; [split; [done | eauto]|].
    split; [|done]. intros zone [= <-]. run. eexists. split_and!; done.
Qed.

(** C7. On the FOUND_NEW and FOUND_UPDATED paths, when the parser has
    built a zone: if the apex name of the parsed zone does not compare
    equal to the configured name, no zone is produced, the parsed zone and
    its contents are released, update_zone fails and the thread goes on
    with the other zones; if the names compare equal, the zone is produced
    with the modification time of the file and the SOA serial of the parsed
    contents recorded on it. *)
Theorem create_zone_load_checks_origin old_zone conf ns s st pz
    (Hwf : wf_state s)
    (Hst : zone_file_status E old_zone (c_file conf) s = Some (st, s))
    (Hpath : st = ZONE_STATUS_FOUND_NEW \/ st = ZONE_STATUS_FOUND_UPDATED)
    (Hopen : knot_zload_open E conf = KNOT_EOK)
    (Hload : knot_zload_load E conf = Some pz) :
  let zone := next_ptr s in
  let c := S (next_ptr s) in
  let cmp := knot_dname_cmp E (p_name pz) (knot_dname_from_str E (c_name conf)) in
  (cmp <> 0 ->
     exists s',
       create_zone E old_zone conf ns s = Some (None, s') /\
       zone_heap s' = zone_heap s /\ contents_heap s' = contents_heap s /\
       update_zone E old_zone conf ns s = Some (KNOT_EZONENOENT, None, s') /\
       forall s0 rest db apex,
         knot_dname_from_str E (c_name conf) = Some apex ->
         knot_zonedb_find (zone_db ns) apex = old_zone ->
         zone_freeze old_zone s0 = Some (tt, s) ->
         zone_loader_thread E (loader_thread ns) (conf :: rest) db s0 =
           zone_loader_thread E (loader_thread ns) rest db
             (add_trace s' [EvConfFree (c_name conf)])) /\
  (cmp = 0 ->
     exists m s',
       stat E (c_file conf) = Some m /\
       create_zone E old_zone conf ns s = Some (Some zone, s') /\
       zone_heap s' !! zone =
         Some {| z_name := p_name pz; z_contents := Some c;
                 zonefile_mtime := m; zonefile_serial := p_serial pz;
                 z_server := ns_data ns; z_conf := conf |} /\
       contents_heap s' !! c = Some (contents_of_parsed pz zone)).
Proof.
  intros zone c cmp.
  destruct (zone_file_status_found E _ _ _ _ _ Hst) as [m Hm].
  { destruct Hpath as [-> | ->]; done. }
  assert (Hcreate : create_zone E old_zone conf ns s =
    (load_zone E conf ≫= λ created : option nat,
       match created with
       | Some nz0 =>
         get_zone nz0 ≫= λ z, put_zone nz0 (set_server z (ns_data ns))
           ≫= λ _, emit (EvResetTimers nz0) ≫= λ _, mret (Some nz0)
       | None => mret None
       end) s).
  { unfold create_zone. rewrite bind_run, Hst.
    destruct Hpath as [-> | ->]; reflexivity. }
  split.
  - intros Hcmp.
    assert (Hnone : create_zone E old_zone conf ns s =
      Some (None, {| zone_heap := zone_heap s; contents_heap := contents_heap s;
                     next_ptr := S (S (next_ptr s)); trace := trace s |})).
    { rewrite Hcreate, bind_run.
      rewrite (load_zone_mismatch_run E conf pz s) by done. run.
      rewrite (delete_id (zone_heap s)) by (by apply wf_zone_fresh).
      rewrite (delete_id (contents_heap s))
        by (apply wf_contents_fresh_ge; [done|lia]).
      reflexivity. }
    assert (Hupd : update_zone E old_zone conf ns s =
      Some (KNOT_EZONENOENT, None,
            {| zone_heap := zone_heap s; contents_heap := contents_heap s;
               next_ptr := S (S (next_ptr s)); trace := trace s |})).
    { unfold update_zone. by rewrite bind_run, Hnone. }
    eexists. split; [exact Hnone|]. split_and!; [done|done|done|].
    intros s0 rest db apex Hname <- Hfreeze.
    by eapply zone_loader_thread_failed.
  - intros Hcmp. exists m. rewrite Hcreate, bind_run.
    rewrite (load_zone_match_run E conf pz m s) by done. run.
    eexists. split_and!; [done|reflexivity| |]; by run.
Qed.

End BuilderClaims.

Section Loader.

Variable E : externals.

(** C3 (amended). When the insertion of a successfully updated zone into
    the new database fails, the failure is logged, contents recycled from
    the old zone are bound back to it, the new zone is released, and the
    thread goes on with the rest of the list and the new database as it
    was: the zone alone is lost.  This is stated for a zone that has
    contents, or that takes the place of no zone or of a zone with
    contents; a zone without contents built in the place of a zone without
    contents is left out. *)
Theorem zone_loader_thread_insert_failure ns conf rest db apex s0 s zone s2 z other
    (Hname : knot_dname_from_str E (c_name conf) = Some apex)
    (Hfreeze : zone_freeze (knot_zonedb_find (zone_db ns) apex) s0 = Some (tt, s))
    (Hupd : update_zone E (knot_zonedb_find (zone_db ns) apex) conf ns s
            = Some (KNOT_EOK, Some zone, s2))
    (Hz : zone_heap s2 !! zone = Some z)
    (Hdup : db !! z_name z = Some other)
    (Hold : match knot_zonedb_find (zone_db ns) apex with
            | Some oz => is_Some (zone_heap s2 !! oz)
            | None => True
            end)
    (Hc : match z_contents z with
          | Some c => is_Some (contents_heap s2 !! c)
          | None => True
          end)
    (Hshared : new_content_of s2 (knot_zonedb_find (zone_db ns) apex) z = false ->
               is_Some (z_contents z)) :
  exists s3,
    zone_loader_thread E (loader_thread ns) (conf :: rest) db s0 =
      zone_loader_thread E (loader_thread ns) rest db s3 /\
    trace s3 = trace s2 ++ [EvInsertFailed (c_name conf)] /\
    zone_heap s3 = delete zone (zone_heap s2) /\
    contents_heap s3 =
      match z_contents z with
      | None => contents_heap s2
      | Some c =>
        if new_content_of s2 (knot_zonedb_find (zone_db ns) apex) z
        then delete c (contents_heap s2)
        else match knot_zonedb_find (zone_db ns) apex, contents_heap s2 !! c with
             | Some oz, Some zc =>
               <[c := set_zc_zone zc (Some oz)]> (contents_heap s2)
             | _, _ => contents_heap s2
             end
      end.
Proof.
  cbn [zone_loader_thread loader_thread data ctx_ns zone_loader_thread_loop]. rewrite Hname.
  rewrite bind_run, Hfreeze, bind_run, Hupd. fields.
  unfold knot_zonedb_insert. run.
  unfold new_content_of in *. unfold zone_deep_free.
  destruct (knot_zonedb_find (zone_db ns) apex) as [oz|].
  - destruct Hold as [o Ho]. rewrite Ho in *. run.
    case_bool_decide as Heq; fields.
    + destruct (Hshared eq_refl) as [c Hcz]. rewrite Hcz in *.
      destruct Hc as [zc Hzc]. run. rewrite Heq. run.
      eexists. split; [reflexivity|]. fields.
      by rewrite delete_insert_eq.
    + run. destruct (z_contents z) as [c|].
      * destruct Hc as [zc Hzc]. run. eexists. split; [reflexivity|]. done.
      * run. eexists. split; [reflexivity|]. done.
  - run. destruct (z_contents z) as [c|].
    + destruct Hc as [zc Hzc]. run. eexists. split; [reflexivity|]. done.
    + run. eexists. split; [reflexivity|]. done.
Qed.

(** C10. Called with a NULL configuration or a NULL name server, the entry
    point returns EINVAL; called on a name server that has no zone
    database, it returns ENOENT; in each case the name server, the caller's
    variable for the old database and the store are what they were. *)
Theorem zones_update_db_from_config_rejects (conf : option conf_t)
    (ns : option knot_nameserver_t) (c : conf_t) (n : knot_nameserver_t)
    (db_old : option (gmap string nat)) (s : state) :
  zones_update_db_from_config E None ns db_old s
    = Some (KNOT_EINVAL, ns, db_old, s) /\
  zones_update_db_from_config E conf None db_old s
    = Some (KNOT_EINVAL, None, db_old, s) /\
  zones_update_db_from_config E (Some c) (Some (set_zone_db n None)) db_old s
    = Some (KNOT_ENOENT, Some (set_zone_db n None), db_old, s).
Proof.
  split_and!; [done | by destruct conf | done].
Qed.

End Loader.

(** ** The test bed: instances and runs *)

Section TestBed.

Import Scenario.

Lemma wf_s0 : wf_state s0.
Proof. split; apply (bool_decide_unpack _); vm_compute; exact I. Qed.

Lemma zone_file_status_classifies_witness :
  exists st,
    zone_file_status E0 (Some 1%nat) "a.zone" s0 = Some (st, s0) /\
    (st = ZONE_STATUS_FOUND_CURRENT <->
       exists oz z, Some 1%nat = Some oz /\ zone_heap s0 !! oz = Some z /\
                    stat E0 "a.zone" = Some (zonefile_mtime z)).
Proof.
  destruct (zone_file_status_classifies E0 (Some 1%nat) "a.zone" s0)
    as (st & Hrun & _ & _ & Hcur & _).
  { intros oz [= <-]. vm_compute. eauto. }
  exists st. split; [exact Hrun | exact Hcur].
Defined.

Lemma update_zone_step_order_witness :
  exists r dst s' calls,
    update_zone E0 (Some 5%nat) conf_c ns0 s0 = Some (r, dst, s') /\
    trace s' = [EvResetTimers 6%nat] ++ EvJournalApply 6%nat :: calls /\
    (dst = Some 6%nat <-> r = KNOT_EOK).
Proof.
  edestruct (update_zone_step_order E0 (Some 5%nat) conf_c ns0 s0)
    as (r & dst & s' & calls & Hrun & Htr & Hdst & _).
  - exact wf_s0.
  - intros oz [= <-]. vm_compute. eauto.
  - vm_compute. reflexivity.
  - vm_compute. reflexivity.
  - intros _ _. split; vm_compute; reflexivity.
  - exists r, dst, s', calls. split; [exact Hrun|]. split; [exact Htr | exact Hdst].
Defined.



Lemma create_zone_not_found_bootstraps_witness :
  exists created s',
    create_zone E0 (Some 5%nat) conf_c ns0 s0 = Some (created, s') /\
    (is_Some created <-> c_acl_xfr_in conf_c <> []).
Proof.
  destruct (create_zone_not_found_bootstraps E0 (Some 5%nat) conf_c ns0 s0 "c.")
    as (created & s' & Hrun & Hiff & _).
  - vm_compute. reflexivity.
  - reflexivity.
  - reflexivity.
  - exists created, s'. split; [exact Hrun | exact Hiff].
Defined.

Lemma create_zone_load_checks_origin_witness :
  exists s',
    create_zone E_wrong_origin (Some 3%nat) conf_b ns0 s0 = Some (None, s') /\
    zone_heap s' = zone_heap s0 /\ contents_heap s' = contents_heap s0.
Proof.
  edestruct (create_zone_load_checks_origin E_wrong_origin (Some 3%nat) conf_b
               ns0 s0) as [Hmismatch _].
  - exact wf_s0.
  - vm_compute. reflexivity.
  - right. reflexivity.
  - reflexivity.
  - reflexivity.
  - destruct Hmismatch as (s' & Hrun & Hz & Hc & _).
    + vm_compute. discriminate.
    + exists s'. split; [exact Hrun|]. split; assumption.
Defined.

Lemma zone_loader_thread_insert_failure_witness :
  exists s3,
    zone_loader_thread E0 (loader_thread ns0) [conf_b; conf_c] {["b." := 3%nat]} s0 =
      zone_loader_thread E0 (loader_thread ns0) [conf_c] {["b." := 3%nat]} s3 /\
    zone_heap s3 !! 6%nat = None.
Proof.
  edestruct (zone_loader_thread_insert_failure E0 ns0 conf_b [conf_c]
               {["b." := 3%nat]} "b." s0) as (s3 & Hrun & _ & Hz & _).
  - reflexivity.
  - vm_compute. reflexivity.
  - vm_compute. reflexivity.
  - vm_compute. reflexivity.
  - vm_compute. reflexivity.
  - vm_compute. eauto.
  - vm_compute. eauto.
  - vm_compute. discriminate.
  - exists s3. split; [exact Hrun|]. rewrite Hz. apply lookup_delete_eq.
Defined.


(** C4, on the test bed: zone c. has no file and was bootstrapped before,
    so that the old zone and the zone built for it both have no contents,
    which [update_zone] takes for shared contents.  The signer fails, and
    the code after [fail] follows the contents reference of the old zone,
    which is NULL: [update_zone] has no result, and neither have the
    thread and the reload, where the two zones before c. fail as well and
    are rolled back. *)
Lemma update_zone_abort_follows_null_contents :
  (exists s1 nz,
     create_zone E_sign_fails (Some 5%nat) conf_c ns0 s0 = Some (Some 6%nat, s1) /\
     zone_heap s1 !! 6%nat = Some nz /\ z_contents nz = None /\
     (z_contents <$> zone_heap s1 !! 5%nat) = Some None /\
     new_content_of s1 (Some 5%nat) nz = false /\
     pipeline_result E_sign_fails conf_c nz false None = KNOT_DNSSEC_ENOKEY /\
     update_zone_fail KNOT_DNSSEC_ENOKEY false (Some 5%nat) 6%nat s1 = None) /\
  update_zone E_sign_fails (Some 5%nat) conf_c ns0 s0 = None /\
  zone_loader_thread E_sign_fails (loader_thread ns0) [conf_c; conf_b] ∅ s0
    = None /\
  (exists r rest db s',
     zone_loader_thread E_sign_fails (loader_thread ns0) [conf_a; conf_b] ∅ s0
       = Some (r, rest, db, s') /\ r = KNOT_EOK /\ db = ∅) /\
  zones_update_db_from_config E_sign_fails (Some conf0) (Some ns0) None s0
    = None.
Proof.
  split.
  { eexists _, _. split; [vm_compute; reflexivity|].
    split; [vm_compute; reflexivity|].
    split_and!; vm_compute; reflexivity. }
  split; [vm_compute; reflexivity|].
  split; [vm_compute; reflexivity|].
  split; [|vm_compute; reflexivity].
  eexists _, _, _, _. split; [vm_compute; reflexivity|].
  split; vm_compute; reflexivity.
Qed.

(** C5, on the test bed: zone b. is reloaded from its file; the sync timer
    is scheduled before NSEC3PARAM is loaded. *)
Lemma update_zone_schedules_before_validation :
  exists r dst s',
    update_zone E0 (Some 3%nat) conf_b ns0 s0 = Some (r, dst, s') /\
    ~ validation_before_schedule (trace s').
Proof.
  eexists _, _, _. split; [vm_compute; reflexivity|].
  intros H.
  specialize (H 3%nat 4%nat 6%nat 0 7%nat eq_refl eq_refl). lia.
Qed.

(** C3, on the test bed: zone b. is configured twice; the second insertion
    fails and the reload succeeds all the same. *)
Lemma insert_failure_is_not_fatal :
  ~ insert_failure_is_fatal E0 conf_dup ns0 s0.
Proof.
  intros H. eapply (H _ _ _ _ "b."); [vm_compute; reflexivity| |reflexivity].
  apply (list_elem_of_lookup_2 _ 14%nat). vm_compute. reflexivity.
Qed.

(** C2, on the test bed: zone a. is preserved, zone b. reloaded and zone
    c. bootstrapped; all three are in the new database, and the old
    database is handed back with all three of its zones, since no zone of
    the new database is the structure that the old database holds. *)
Lemma reload_leaves_old_database_whole :
  exists ns' s',
    zones_update_db_from_config E0 (Some conf0) (Some ns0) None s0
      = Some (KNOT_EOK, Some ns', Some db0, s') /\
    zone_db ns' =
      Some (<["a." := 6%nat]> (<["b." := 7%nat]> (<["c." := 9%nat]> ∅))) /\
    zone_file_status E0 (Some 1%nat) "a.zone" s0
      = Some (ZONE_STATUS_FOUND_CURRENT, s0) /\
    db0 !! "a." = Some 1%nat /\ db0 !! "b." = Some 3%nat /\
    db0 !! "c." = Some 5%nat.
Proof.
  eexists _, _. split; [vm_compute; reflexivity|].
  split_and!; vm_compute; reflexivity.
Qed.

(** C9, on the test bed: two reloads in a row with a.zone untouched.  The
    first takes zone a. through the FOUND_CURRENT path and keeps its
    contents; the zone structure it builds records no modification time,
    so the second reload classifies the zone as FOUND_UPDATED and parses
    the file again into new contents. *)
Lemma second_reload_parses_unchanged_file :
  exists ns1 old1 s1 ns2 old2 s2,
    zones_update_db_from_config E0 (Some conf0) (Some ns0) None s0
      = Some (KNOT_EOK, Some ns1, old1, s1) /\
    zones_update_db_from_config E0 (Some conf0) (Some ns1) None s1
      = Some (KNOT_EOK, Some ns2, old2, s2) /\
    zone_file_status E0 (knot_zonedb_find (zone_db ns0) "a.") "a.zone" s0
      = Some (ZONE_STATUS_FOUND_CURRENT, s0) /\
    zone_file_status E0 (knot_zonedb_find (zone_db ns1) "a.") "a.zone" s1
      = Some (ZONE_STATUS_FOUND_UPDATED, s1) /\
    (knot_zonedb_find (zone_db ns1) "a." ≫= (zone_heap s1 !!.))
      = Some {| z_name := "a."; z_contents := Some 2%nat;
                zonefile_mtime := 0; zonefile_serial := 0;
                z_server := Some 0%nat; z_conf := conf_a |} /\
    (knot_zonedb_find (zone_db ns2) "a." ≫= (zone_heap s2 !!.))
      = Some {| z_name := "a."; z_contents := Some 11%nat;
                zonefile_mtime := 100; zonefile_serial := 2;
                z_server := Some 0%nat; z_conf := conf_a |}.
Proof.
  eexists _, _, _, _, _, _. split; [vm_compute; reflexivity|].
  split; [vm_compute; reflexivity|].
  split_and!; vm_compute; reflexivity.
Qed.

End TestBed.

(** ** Data in wire format *)

Lemma uint8_value_range b : 0 <= uint8_value b < 2 ^ 8.
Proof.
  unfold uint8_value. pose proof (Byte.to_N_bounded b). lia.
Qed.

Lemma uint8_value_to_uint8 x : uint8_value (to_uint8 x) = x mod 2 ^ 8.
Proof.
  unfold uint8_value, to_uint8.
  assert (Hr : 0 <= x mod 2 ^ 8 < 2 ^ 8) by (apply Z.mod_pos_bound; lia).
  destruct (Byte.of_N (Z.to_N (x mod 2 ^ 8))) as [b|] eqn:Hb.
  - apply Byte.to_of_N in Hb. rewrite Hb. lia.
  - apply Byte.of_N_None_iff in Hb. lia.
Qed.

Lemma to_uint8_uint8_value b : to_uint8 (uint8_value b) = b.
Proof.
  unfold to_uint8. pose proof (uint8_value_range b) as Hr.
  rewrite Z.mod_small by done. unfold uint8_value.
  rewrite N2Z.id, Byte.of_to_N. done.
Qed.

Lemma byte_mask x n : 0 <= n -> Z.land (Z.shiftr x n) 255 = (x / 2 ^ n) mod 2 ^ 8.
Proof.
  intros Hn. change 255 with (Z.ones 8).
  rewrite Z.land_ones by lia. by rewrite Z.shiftr_div_pow2.
Qed.

Lemma lor_shiftl_small a b n :
  0 <= n -> 0 <= b < 2 ^ n -> Z.lor (Z.shiftl a n) b = a * 2 ^ n + b.
Proof.
  intros Hn Hb.
  assert (Hland : Z.land (Z.shiftl a n) b = 0).
  { apply Z.bits_inj'. intros i Hi. rewrite Z.land_spec, Z.bits_0.
    destruct (decide (i < n)).
    - rewrite Z.shiftl_spec_low by lia. done.
    - rewrite <- (Z.mod_small b (2 ^ n)) by lia.
      rewrite Z.mod_pow2_bits_high by lia. apply andb_false_r. }
  rewrite <- Z.lxor_lor, <- Z.add_nocarry_lxor by done.
  by rewrite Z.shiftl_mul_pow2.
Qed.

Lemma low_byte x : Z.land x 255 = x mod 2 ^ 8.
Proof. change 255 with (Z.ones 8). by rewrite Z.land_ones by lia. Qed.

Lemma be16_value p0 p1 :
  Z.lor (Z.shiftl (uint8_value p0) 8) (uint8_value p1)
  = uint8_value p0 * 2 ^ 8 + uint8_value p1.
Proof. apply lor_shiftl_small; [lia | apply uint8_value_range]. Qed.

Lemma be32_value p0 p1 p2 p3 :
  Z.lor (Z.lor (Z.lor (Z.shiftl (uint8_value p0) 24)
                      (Z.shiftl (uint8_value p1) 16))
               (Z.shiftl (uint8_value p2) 8))
        (uint8_value p3)
  = uint8_value p0 * 2 ^ 24 + uint8_value p1 * 2 ^ 16
    + uint8_value p2 * 2 ^ 8 + uint8_value p3.
Proof.
  pose proof (uint8_value_range p0). pose proof (uint8_value_range p1).
  pose proof (uint8_value_range p2). pose proof (uint8_value_range p3).
  replace (Z.shiftl (uint8_value p0) 24)
    with (Z.shiftl (Z.shiftl (uint8_value p0) 8) 16)
    by (rewrite Z.shiftl_shiftl by lia; done).
  rewrite <- Z.shiftl_lor, be16_value.
  replace (Z.shiftl (uint8_value p0 * 2 ^ 8 + uint8_value p1) 16)
    with (Z.shiftl (Z.shiftl (uint8_value p0 * 2 ^ 8 + uint8_value p1) 8) 8)
    by (rewrite Z.shiftl_shiftl by lia; done).
  rewrite <- Z.shiftl_lor.
  rewrite (lor_shiftl_small _ (uint8_value p2)) by lia.
  rewrite lor_shiftl_small by lia. lia.
Qed.

Lemma split_mod d n m :
  0 <= n -> 0 <= m ->
  d mod 2 ^ (n + m) = d mod 2 ^ n + 2 ^ n * ((d / 2 ^ n) mod 2 ^ m).
Proof.
  intros Hn Hm. rewrite Z.pow_add_r by done.
  apply Z.rem_mul_r; lia.
Qed.

(** X1. A 16-bit value written at an offset that has two bytes of room is
    read back from that offset as the value, reduced modulo 2^16. *)
Theorem knot_wire_write_read_u16 (buf : list byte) (pos : nat) (data : Z)
    (Hpos : (pos + 1 < length buf)%nat) :
  exists buf', knot_wire_write_u16 buf pos data = Some buf' /\
    knot_wire_read_u16 buf' pos = Some (data mod 2 ^ 16).
Proof.
  unfold knot_wire_write_u16. rewrite decide_True by done.
  eexists. split; [reflexivity|]. unfold knot_wire_read_u16.
  repeat (rewrite ?list_lookup_insert_ne by lia;
          rewrite list_lookup_insert_eq by (rewrite ?length_insert; lia);
          cbn [mbind option_bind]).
  f_equal. unfold to_uint16.
  rewrite be16_value, !uint8_value_to_uint8, byte_mask, low_byte by lia.
  rewrite !Z.mod_mod by lia.
  pose proof (split_mod data 8 8 ltac:(lia) ltac:(lia)) as Hs.
  change (8 + 8) with 16 in Hs. rewrite Z.mod_small; [lia|].
  pose proof (Z.mod_pos_bound data (2 ^ 8)).
  pose proof (Z.mod_pos_bound (data / 2 ^ 8) (2 ^ 8)). lia.
Qed.

(** X2. A 32-bit value written at an offset that has four bytes of room
    is read back from that offset as the value, reduced modulo 2^32. *)
Theorem knot_wire_write_read_u32 (buf : list byte) (pos : nat) (data : Z)
    (Hpos : (pos + 3 < length buf)%nat) :
  exists buf', knot_wire_write_u32 buf pos data = Some buf' /\
    knot_wire_read_u32 buf' pos = Some (data mod 2 ^ 32).
Proof.
  unfold knot_wire_write_u32. rewrite decide_True by done.
  eexists. split; [reflexivity|]. unfold knot_wire_read_u32.
  repeat (rewrite ?list_lookup_insert_ne by lia;
          rewrite list_lookup_insert_eq by (rewrite ?length_insert; lia);
          cbn [mbind option_bind]).
  f_equal. unfold to_uint32.
  rewrite be32_value, !uint8_value_to_uint8, !byte_mask, low_byte by lia.
  rewrite !Z.mod_mod by lia.
  assert (D16 : data / 2 ^ 8 / 2 ^ 8 = data / 2 ^ 16)
    by (rewrite Z.div_div by lia; done).
  assert (D24 : data / 2 ^ 16 / 2 ^ 8 = data / 2 ^ 24)
    by (rewrite Z.div_div by lia; done).
  pose proof (split_mod data 8 24 ltac:(lia) ltac:(lia)) as H1.
  pose proof (split_mod (data / 2 ^ 8) 8 16 ltac:(lia) ltac:(lia)) as H2.
  pose proof (split_mod (data / 2 ^ 16) 8 8 ltac:(lia) ltac:(lia)) as H3.
  rewrite D16 in H2. rewrite D24 in H3.
  change (8 + 24) with 32 in H1. change (8 + 16) with 24 in H2.
  change (8 + 8) with 16 in H3.
  pose proof (Z.mod_pos_bound data (2 ^ 8)).
  pose proof (Z.mod_pos_bound (data / 2 ^ 8) (2 ^ 8)).
  pose proof (Z.mod_pos_bound (data / 2 ^ 16) (2 ^ 8)).
  pose proof (Z.mod_pos_bound (data / 2 ^ 24) (2 ^ 8)).
  rewrite Z.mod_small; lia.
Qed.

(** X3. Writing back the 16-bit value that was read at an offset leaves
    the buffer as it was. *)
Theorem knot_wire_read_write_u16 (buf : list byte) (pos : nat) (v : Z)
    (Hread : knot_wire_read_u16 buf pos = Some v) :
  knot_wire_write_u16 buf pos v = Some buf.
Proof.
  unfold knot_wire_read_u16 in Hread.
  destruct (buf !! pos) as [p0|] eqn:H0; [|done].
  destruct (buf !! (pos + 1)%nat) as [p1|] eqn:H1; [|done].
  cbn [mbind option_bind] in Hread. injection Hread as <-.
  pose proof (lookup_lt_Some _ _ _ H1) as Hlen.
  pose proof (uint8_value_range p0). pose proof (uint8_value_range p1).
  unfold knot_wire_write_u16. rewrite decide_True by done. f_equal.
  rewrite byte_mask, low_byte, be16_value by lia. unfold to_uint16.
  rewrite (Z.mod_small _ (2 ^ 16)) by lia.
  replace ((uint8_value p0 * 2 ^ 8 + uint8_value p1) / 2 ^ 8)
    with (uint8_value p0) by (apply Z.div_unique with (uint8_value p1); lia).
  replace ((uint8_value p0 * 2 ^ 8 + uint8_value p1) mod 2 ^ 8)
    with (uint8_value p1) by (apply Z.mod_unique with (uint8_value p0); lia).
  rewrite !Z.mod_small by lia. rewrite !to_uint8_uint8_value.
  rewrite (list_insert_id buf pos p0) by done.
  by rewrite list_insert_id.
Qed.

(** X4. Writing back the 32-bit value that was read at an offset leaves
    the buffer as it was. *)
Theorem knot_wire_read_write_u32 (buf : list byte) (pos : nat) (v : Z)
    (Hread : knot_wire_read_u32 buf pos = Some v) :
  knot_wire_write_u32 buf pos v = Some buf.
Proof.
  unfold knot_wire_read_u32 in Hread.
  destruct (buf !! pos) as [p0|] eqn:H0; [|done].
  destruct (buf !! (pos + 1)%nat) as [p1|] eqn:H1; [|done].
  destruct (buf !! (pos + 2)%nat) as [p2|] eqn:H2; [|done].
  destruct (buf !! (pos + 3)%nat) as [p3|] eqn:H3; [|done].
  cbn [mbind option_bind] in Hread. injection Hread as <-.
  pose proof (lookup_lt_Some _ _ _ H3) as Hlen.
  pose proof (uint8_value_range p0) as R0.
  pose proof (uint8_value_range p1) as R1.
  pose proof (uint8_value_range p2) as R2.
  pose proof (uint8_value_range p3) as R3.
  unfold knot_wire_write_u32. rewrite decide_True by done. f_equal.
  rewrite !byte_mask, low_byte, be32_value by lia. unfold to_uint32.
  set (v := uint8_value p0 * 2 ^ 24 + uint8_value p1 * 2 ^ 16
            + uint8_value p2 * 2 ^ 8 + uint8_value p3).
  rewrite (Z.mod_small v (2 ^ 32)) by (subst v; lia).
  assert (E0 : v / 2 ^ 24 = uint8_value p0)
    by (symmetry; apply Z.div_unique with
          (uint8_value p1 * 2 ^ 16 + uint8_value p2 * 2 ^ 8 + uint8_value p3);
        subst v; lia).
  assert (E1 : v / 2 ^ 16 = uint8_value p0 * 2 ^ 8 + uint8_value p1)
    by (symmetry; apply Z.div_unique with
          (uint8_value p2 * 2 ^ 8 + uint8_value p3); subst v; lia).
  assert (E2 : v / 2 ^ 8
               = uint8_value p0 * 2 ^ 16 + uint8_value p1 * 2 ^ 8 + uint8_value p2)
    by (symmetry; apply Z.div_unique with (uint8_value p3); subst v; lia).
  rewrite E0, E1, E2.
  replace ((uint8_value p0 * 2 ^ 8 + uint8_value p1) mod 2 ^ 8)
    with (uint8_value p1) by (apply Z.mod_unique with (uint8_value p0); lia).
  replace ((uint8_value p0 * 2 ^ 16 + uint8_value p1 * 2 ^ 8 + uint8_value p2)
             mod 2 ^ 8)
    with (uint8_value p2)
    by (apply Z.mod_unique with (uint8_value p0 * 2 ^ 8 + uint8_value p1); lia).
  replace (v mod 2 ^ 8) with (uint8_value p3)
    by (apply Z.mod_unique with
          (uint8_value p0 * 2 ^ 16 + uint8_value p1 * 2 ^ 8 + uint8_value p2);
        subst v; lia).
  rewrite !Z.mod_small by lia. rewrite !to_uint8_uint8_value.
  rewrite (list_insert_id buf pos p0) by done.
  rewrite (list_insert_id buf (pos + 1)%nat p1) by done.
  rewrite (list_insert_id buf (pos + 2)%nat p2) by done.
  by rewrite list_insert_id.
Qed.

(** X5. Writing a 16-bit value keeps the length of the buffer and changes
    no byte other than the two at the offset. *)
Theorem knot_wire_write_u16_frame (buf buf' : list byte) (pos : nat) (data : Z)
    (Hwrite : knot_wire_write_u16 buf pos data = Some buf') :
  length buf' = length buf /\
  forall i, (i < pos \/ pos + 2 <= i)%nat -> buf' !! i = buf !! i.
Proof.
  unfold knot_wire_write_u16 in Hwrite.
  destruct (decide (pos + 1 < length buf)%nat); [|done].
  injection Hwrite as <-. split.
  - by rewrite !length_insert.
  - intros i Hi. by rewrite !list_lookup_insert_ne by lia.
Qed.

(** X6. Writing a 32-bit value keeps the length of the buffer and changes
    no byte other than the four at the offset. *)
Theorem knot_wire_write_u32_frame (buf buf' : list byte) (pos : nat) (data : Z)
    (Hwrite : knot_wire_write_u32 buf pos data = Some buf') :
  length buf' = length buf /\
  forall i, (i < pos \/ pos + 4 <= i)%nat -> buf' !! i = buf !! i.
Proof.
  unfold knot_wire_write_u32 in Hwrite.
  destruct (decide (pos + 3 < length buf)%nat); [|done].
  injection Hwrite as <-. split.
  - by rewrite !length_insert.
  - intros i Hi. by rewrite !list_lookup_insert_ne by lia.
Qed.

Lemma knot_wire_read_u16_bytes (buf : list byte) (pos : nat) (v : Z) :
  knot_wire_read_u16 buf pos = Some v ->
  exists p0 p1, buf !! pos = Some p0 /\ buf !! (pos + 1)%nat = Some p1 /\
    v = 256 * uint8_value p0 + uint8_value p1 /\ 0 <= v < 65536.
Proof.
  unfold knot_wire_read_u16.
  destruct (buf !! pos) as [p0|]; [|done].
  destruct (buf !! (pos + 1)%nat) as [p1|]; [|done].
  cbn [mbind option_bind]. intros [= <-]. exists p0, p1.
  pose proof (uint8_value_range p0). pose proof (uint8_value_range p1).
  unfold to_uint16. rewrite be16_value, Z.mod_small by lia.
  split_and!; try done; lia.
Qed.

Lemma knot_wire_read_u32_of_bytes (buf : list byte) (pos : nat) p0 p1 p2 p3 :
  buf !! pos = Some p0 -> buf !! (pos + 1)%nat = Some p1 ->
  buf !! (pos + 2)%nat = Some p2 -> buf !! (pos + 3)%nat = Some p3 ->
  knot_wire_read_u32 buf pos =
    Some (16777216 * uint8_value p0 + 65536 * uint8_value p1
          + 256 * uint8_value p2 + uint8_value p3).
Proof.
  unfold knot_wire_read_u32. intros -> -> -> ->. cbn [mbind option_bind].
  pose proof (uint8_value_range p0). pose proof (uint8_value_range p1).
  pose proof (uint8_value_range p2). pose proof (uint8_value_range p3).
  unfold to_uint32. rewrite be32_value, Z.mod_small by lia. f_equal. lia.
Qed.

(** X7. The 16-bit value read at an offset is 256 times the byte at the
    offset plus the byte after it, the most significant byte first, and
    lies in the range of uint16_t; there is a value exactly when both
    bytes are in the buffer. *)
Theorem knot_wire_read_u16_value (buf : list byte) (pos : nat) (v : Z) :
  knot_wire_read_u16 buf pos = Some v <->
  exists p0 p1, buf !! pos = Some p0 /\ buf !! (pos + 1)%nat = Some p1 /\
    v = 256 * uint8_value p0 + uint8_value p1 /\ 0 <= v < 65536.
Proof.
  split; [apply knot_wire_read_u16_bytes|].
  unfold knot_wire_read_u16.
  intros (p0 & p1 & -> & -> & -> & Hr). cbn [mbind option_bind].
  pose proof (uint8_value_range p0). pose proof (uint8_value_range p1).
  unfold to_uint16. rewrite be16_value, Z.mod_small by lia. f_equal. lia.
Qed.

(** X8. The 32-bit value read at an offset is made of the four bytes at
    the offset, the most significant first, and lies in the range of
    uint32_t; there is a value exactly when the four bytes are in the
    buffer. *)
Theorem knot_wire_read_u32_value (buf : list byte) (pos : nat) (v : Z) :
  knot_wire_read_u32 buf pos = Some v <->
  exists p0 p1 p2 p3,
    buf !! pos = Some p0 /\ buf !! (pos + 1)%nat = Some p1 /\
    buf !! (pos + 2)%nat = Some p2 /\ buf !! (pos + 3)%nat = Some p3 /\
    v = 16777216 * uint8_value p0 + 65536 * uint8_value p1
        + 256 * uint8_value p2 + uint8_value p3 /\
    0 <= v < 4294967296.
Proof.
  split.
  - unfold knot_wire_read_u32.
    destruct (buf !! pos) as [p0|]; [|done].
    destruct (buf !! (pos + 1)%nat) as [p1|]; [|done].
    destruct (buf !! (pos + 2)%nat) as [p2|]; [|done].
    destruct (buf !! (pos + 3)%nat) as [p3|]; [|done].
    cbn [mbind option_bind]. intros [= <-]. exists p0, p1, p2, p3.
    pose proof (uint8_value_range p0). pose proof (uint8_value_range p1).
    pose proof (uint8_value_range p2). pose proof (uint8_value_range p3).
    unfold to_uint32. rewrite be32_value, Z.mod_small by lia.
    split_and!; try done; lia.
  - intros (p0 & p1 & p2 & p3 & H0 & H1 & H2 & H3 & -> & Hr).
    by apply knot_wire_read_u32_of_bytes.
Qed.

(** X9. The 32-bit value at an offset is the 16-bit value at the offset
    times 2^16 plus the 16-bit value two bytes further. *)
Theorem knot_wire_read_u32_halves (buf : list byte) (pos : nat) (hi lo : Z)
    (Hhi : knot_wire_read_u16 buf pos = Some hi)
    (Hlo : knot_wire_read_u16 buf (pos + 2)%nat = Some lo) :
  knot_wire_read_u32 buf pos = Some (hi * 65536 + lo).
Proof.
  apply knot_wire_read_u16_bytes in Hhi as (p0 & p1 & H0 & H1 & -> & _).
  apply knot_wire_read_u16_bytes in Hlo as (p2 & p3 & H2 & H3 & -> & _).
  replace (pos + 2 + 1)%nat with (pos + 3)%nat in H3 by lia.
  rewrite (knot_wire_read_u32_of_bytes buf pos p0 p1 p2 p3) by done.
  f_equal. lia.
Qed.

(** X10. Writing a 32-bit value is writing its upper half as a 16-bit
    value at the offset and then the value itself as a 16-bit value two
    bytes further; both fail together when the buffer is too short. *)
Theorem knot_wire_write_u32_halves (buf : list byte) (pos : nat) (data : Z) :
  knot_wire_write_u32 buf pos data =
    (buf' ← knot_wire_write_u16 buf pos (Z.shiftr data 16);
     knot_wire_write_u16 buf' (pos + 2)%nat data).
Proof.
  unfold knot_wire_write_u32, knot_wire_write_u16.
  destruct (decide (pos + 3 < length buf)%nat) as [H3|H3].
  - rewrite (decide_True (P := (pos + 1 < length buf)%nat)) by lia.
    cbn [mbind option_bind].
    rewrite decide_True by (rewrite !length_insert; lia).
    rewrite Z.shiftr_shiftr by lia. change (16 + 8) with 24.
    replace (pos + 2 + 1)%nat with (pos + 3)%nat by lia. done.
  - destruct (decide (pos + 1 < length buf)%nat) as [H1|H1]; [|done].
    cbn [mbind option_bind].
    rewrite decide_False by (rewrite !length_insert; lia). done.
Qed.

(** ** The database switch *)

Lemma bind_inv {A B} (m : M A) (k : A -> M B) (s : state) (r : B * state) :
  (m ≫= k) s = Some r -> exists a s1, m s = Some (a, s1) /\ k a s1 = Some r.
Proof.
  rewrite bind_run. destruct (m s) as [[a s1]|]; [|done]. eauto.
Qed.

Lemma remove_zones_step_run db_old new_zone z s :
  zone_heap s !! new_zone = Some z ->
  remove_zones_step db_old new_zone s =
    Some (if bool_decide (db_old !! z_name z = Some new_zone)
          then delete (z_name z) db_old else db_old, s).
Proof.
  intros Hz. unfold remove_zones_step. run.
  unfold knot_zonedb_find. by case_bool_decide.
Qed.

Lemma remove_zones_iter_exact (it : list (string * nat)) (db_old : gmap string nat) s :
  (forall n p, (n, p) ∈ it -> exists z, zone_heap s !! p = Some z /\ z_name z = n) ->
  exists db,
    remove_zones_iter it db_old s = Some (db, s) /\
    forall n, db !! n =
      match db_old !! n with
      | Some p => if decide ((n, p) ∈ it) then None else Some p
      | None => None
      end.
Proof.
  revert db_old. induction it as [|[k q] it IH]; intros db_old Hnames.
  - exists db_old. split; [done|]. intros n.
    destruct (db_old !! n); [|done]. rewrite decide_False; [done|].
    apply not_elem_of_nil.
  - destruct (Hnames k q) as (z & Hz & Hk); [left|]. subst k.
    cbn [remove_zones_iter]. rewrite bind_run.
    rewrite (remove_zones_step_run _ _ _ _ Hz).
    edestruct (IH (if bool_decide (db_old !! z_name z = Some q)
                   then delete (z_name z) db_old else db_old))
      as (db & Hrun & Hdb).
    { intros n p Hin. apply Hnames. by right. }
    exists db. split; [exact Hrun|]. intros n. rewrite Hdb.
    case_bool_decide as Hq.
    + destruct (decide (n = z_name z)) as [->|Hn].
      * rewrite lookup_delete_eq, Hq. rewrite decide_True; [done|left].
      * rewrite lookup_delete_ne by done.
        destruct (db_old !! n) as [p|]; [|done].
        repeat case_decide; try done; set_solver.
    + destruct (db_old !! n) as [p|] eqn:Hn; [|done].
      repeat case_decide; try done; set_solver.
Qed.

Lemma remove_zones_iter_inv (it : list (string * nat)) (db_old db : gmap string nat) s s' :
  remove_zones_iter it db_old s = Some (db, s') -> db ⊆ db_old /\ s' = s.
Proof.
  revert db_old s. induction it as [|[k q] it IH]; intros db_old s.
  - intros [= <- <-]. done.
  - cbn [remove_zones_iter]. intros Hrun.
    apply bind_inv in Hrun as (db1 & s1 & Hstep & Hrun).
    apply IH in Hrun as [Hsub ->].
    unfold remove_zones_step in Hstep.
    apply bind_inv in Hstep as (z & s2 & Hz & Hstep).
    unfold get_zone in Hz. destruct (zone_heap s !! q); [|done].
    injection Hz as <- <-.
    case_bool_decide; injection Hstep as <- <-; split; try done.
    etrans; [exact Hsub|]. apply delete_subseteq.
Qed.

Section Switch.

Variable E : externals.

(** X11. On a new database whose zones are allocated and entered under
    their own names, remove_zones returns KNOT_EOK, leaves the store as it
    was, and takes out of the old database exactly the entries that hold
    the very zone structure the new database holds under the same name;
    every other entry stays. *)
Theorem remove_zones_exact (db_new db_old : gmap string nat) (s : state)
    (Hnames : forall n p, db_new !! n = Some p ->
                exists z, zone_heap s !! p = Some z /\ z_name z = n) :
  exists db,
    remove_zones db_new db_old s = Some (KNOT_EOK, db, s) /\
    forall n, db !! n =
      match db_old !! n with
      | Some p => if decide (db_new !! n = Some p) then None else Some p
      | None => None
      end.
Proof.
  destruct (remove_zones_iter_exact (map_to_list db_new) db_old s)
    as (db & Hrun & Hdb).
  { intros n p Hin. apply Hnames. by apply elem_of_map_to_list. }
  exists db. split.
  - unfold remove_zones. by rewrite bind_run, Hrun.
  - intros n. rewrite Hdb. destruct (db_old !! n) as [p|]; [|done].
    destruct (decide ((n, p) ∈ map_to_list db_new)) as [Hin|Hin];
      destruct (decide (db_new !! n = Some p)) as [Hl|Hl]; try done.
    + exfalso. by apply Hl, elem_of_map_to_list.
    + exfalso. by apply Hin, elem_of_map_to_list.
Qed.

Lemma load_zonedb_none ns conf s s' :
  load_zonedb E ns conf s = Some (None, s') -> s' = s.
Proof.
  unfold load_zonedb.
  destruct (knot_zonedb_new_ok E); cbn [negb]; [|by intros [= <-]].
  case_bool_decide; [done|].
  destruct (pthread_mutex_init_ok E); cbn [negb]; [|by intros [= <-]].
  destruct (dt_create_ok E); [|by intros [= <-]].
  intros Hrun. apply bind_inv in Hrun as (r & s1 & _ & Hrun). done.
Qed.

(** X12. Whatever the zones do, the entry point returns one of KNOT_EOK,
    KNOT_EINVAL, KNOT_ENOENT and KNOT_ENOMEM: the failure of a zone never
    shows in the result.  On a result other than KNOT_EOK the name server,
    the caller's variable and the store are what they were.  On KNOT_EOK
    the name server is the one given with its database replaced by the
    database that [load_zonedb] has filled from the configuration, the
    caller's variable holds what [remove_zones] has left of the database
    the name server held before, a part of it, and the store is the one
    [load_zonedb] has left. *)
Theorem zones_update_db_from_config_outcome conf ns db_old s r ns' old' s'
    (Hrun : zones_update_db_from_config E conf ns db_old s
            = Some (r, ns', old', s')) :
  (r = KNOT_EOK \/ r = KNOT_EINVAL \/ r = KNOT_ENOENT \/ r = KNOT_ENOMEM) /\
  (r <> KNOT_EOK -> ns' = ns /\ old' = db_old /\ s' = s) /\
  (r = KNOT_EOK ->
     exists c n old db_new rest,
       conf = Some c /\ ns = Some n /\ zone_db n = Some old /\
       load_zonedb E n c s = Some (Some db_new, s') /\
       ns' = Some (set_zone_db n (Some db_new)) /\
       remove_zones db_new old s' = Some (KNOT_EOK, rest, s') /\
       old' = Some rest /\ rest ⊆ old).
Proof.
  unfold zones_update_db_from_config in Hrun.
  destruct conf as [c|]; [|injection Hrun as <- <- <- <-; naive_solver].
  destruct ns as [n|]; [|injection Hrun as <- <- <- <-; naive_solver].
  destruct (zone_db n) as [old|] eqn:Hdb;
    [|injection Hrun as <- <- <- <-; naive_solver].
  apply bind_inv in Hrun as (loaded & s1 & Hload & Hrun).
  destruct loaded as [db_new|].
  2: { apply load_zonedb_none in Hload as ->.
       injection Hrun as <- <- <- <-. naive_solver. }
  apply bind_inv in Hrun as ([r1 rest] & s2 & Hrem & Hrun).
  assert (Hrem' := Hrem). unfold remove_zones in Hrem.
  apply bind_inv in Hrem as (db & s3 & Hiter & Hrem).
  injection Hrem as <- <- <-.
  apply remove_zones_iter_inv in Hiter as [Hsub ->].
  cbn [fst snd] in Hrun. rewrite bool_decide_eq_false_2 in Hrun by (intros ?; done).
  injection Hrun as <- <- <- <-.
  split; [by left|]. split; [done|]. intros _.
  exists c, n, old, db_new, db. done.
Qed.


(** X14. With a zone count of zero the zone list is not looked at: the
    entry point returns KNOT_EOK, the name server holds an empty database,
    the caller's variable holds the old database with all its zones, and
    the store is what it was. *)
Theorem zones_update_db_from_config_no_zones conf n old db_old s
    (Hdb : zone_db n = Some old)
    (Hcount : zones_count conf = 0%nat)
    (Hnew : knot_zonedb_new_ok E = true) :
  zones_update_db_from_config E (Some conf) (Some n) db_old s
    = Some (KNOT_EOK, Some (set_zone_db n (Some ∅)), Some old, s).
Proof.
  unfold zones_update_db_from_config. rewrite Hdb, bind_run.
  unfold load_zonedb. rewrite Hnew. cbn [negb].
  rewrite bool_decide_eq_true_2 by done.
  rewrite ret_run, bind_run. unfold remove_zones.
  rewrite map_to_list_empty. reflexivity.
Qed.

End Switch.

(** ** The loader threads *)

Section LoaderFacts.

Variable E : externals.

Lemma knot_zonedb_insert_inv db zone r db' s s' :
  knot_zonedb_insert db zone s = Some (r, db', s') ->
  s' = s /\ exists z, zone_heap s !! zone = Some z /\
    (r = KNOT_EOK /\ db !! z_name z = None /\ db' = <[z_name z := zone]> db
     \/ r <> KNOT_EOK /\ db' = db).
Proof.
  unfold knot_zonedb_insert. intros Hrun.
  apply bind_inv in Hrun as (z & s1 & Hz & Hrun).
  unfold get_zone in Hz. destruct (zone_heap s !! zone) as [z'|]; [|done].
  injection Hz as <- <-.
  destruct (db !! z_name z') eqn:Hl; injection Hrun as <- <- <-;
    (split; [done|]); exists z'; (split; [done|]); [right|left]; done.
Qed.

Lemma zone_loader_thread_loop_monotone ns config_zones db_new s r rest db s' :
  zone_loader_thread_loop E ns config_zones db_new s = Some (r, rest, db, s') ->
  db_new ⊆ db /\
  (size db + length rest <= size db_new + length config_zones)%nat /\
  (r = KNOT_EOK /\ rest = [] \/ r = KNOT_ENOMEM).
Proof.
  revert db_new s.
  induction config_zones as [|zone_config l IH]; intros db_new s Hrun.
  - injection Hrun as <- <- <- <-. split_and!; [done|lia|by left].
  - cbn [zone_loader_thread_loop] in Hrun.
    destruct (knot_dname_from_str E (c_name zone_config)) as [apex|].
    2: { injection Hrun as <- <- <- <-. split_and!; [done|simpl; lia|by right]. }
    apply bind_inv in Hrun as (u & s1 & _ & Hrun).
    apply bind_inv in Hrun as ([code dst] & s2 & _ & Hrun).
    apply bind_inv in Hrun as (db1 & s3 & Hstep & Hrun).
    apply IH in Hrun as (Hsub & Hsize & Hcode).
    assert (Hdb1 : db_new ⊆ db1 /\ (size db1 <= S (size db_new))%nat).
    { assert (Hfree : (emit (EvConfFree (c_name zone_config)) ≫= λ _, mret db_new)
                        s2 = Some (db1, s3) -> db1 = db_new).
      { intros H. apply bind_inv in H as (? & ? & _ & H). by injection H as <-. }
      destruct code;
        try (apply Hfree in Hstep as ->; split; [done|lia]).
      destruct dst as [zone|]; [|done].
      apply bind_inv in Hstep as ([ri dbi] & s4 & Hins & Hstep).
      apply knot_zonedb_insert_inv in Hins
        as (-> & z & Hz & [(-> & Hnone & ->)|(Hri & ->)]).
      - injection Hstep as <- <-. split.
        + by apply insert_subseteq.
        + by rewrite map_size_insert_None.
      - assert (db1 = db_new) as ->; [|split; [done|lia]].
        destruct ri; [done|..];
          repeat (apply bind_inv in Hstep as (? & ? & _ & Hstep));
          by injection Hstep as <-. }
    destruct Hdb1 as [Hsub1 Hsize1].
    split_and!; [by etrans|simpl; lia|done].
Qed.

(** What the entry guard decides: the thread runs its loop on the name
    server of its context, or it is refused. *)
Lemma zone_loader_thread_guard thread config_zones db_new :
  (exists ctx, thread = Some {| data := Some ctx |} /\
     zone_loader_thread E thread config_zones db_new
       = zone_loader_thread_loop E (ctx_ns ctx) config_zones db_new)
  \/
  (thread = None \/ thread = Some {| data := None |}) /\
  zone_loader_thread E thread config_zones db_new
    = mret (KNOT_EINVAL, config_zones, db_new).
Proof.
  destruct thread as [[[ctx|]]|]; [left; by exists ctx|right..]; split; auto.
Qed.

(** X15. A loader thread given no thread structure, or one without data,
    returns KNOT_EINVAL and touches nothing.  Otherwise it never takes an
    entry out of the new database and adds at most one entry for each
    configuration it takes from the list, and it returns KNOT_EOK once the
    list is empty, or KNOT_ENOMEM when a name cannot be converted. *)
Theorem zone_loader_thread_grows thread config_zones db_new s r rest db s'
    (Hrun : zone_loader_thread E thread config_zones db_new s
            = Some (r, rest, db, s')) :
  db_new ⊆ db /\
  (size db + length rest <= size db_new + length config_zones)%nat /\
  (r = KNOT_EINVAL <-> thread = None \/ thread = Some {| data := None |}) /\
  (r = KNOT_EINVAL -> rest = config_zones /\ db = db_new /\ s' = s) /\
  (r = KNOT_EOK /\ rest = [] \/ r = KNOT_ENOMEM \/ r = KNOT_EINVAL).
Proof.
  destruct (zone_loader_thread_guard thread config_zones db_new)
    as [(ctx & -> & Heq)|[Hbad Heq]]; rewrite Heq in Hrun.
  - apply zone_loader_thread_loop_monotone in Hrun as (Hsub & Hsize & Hcode).
    split_and!; [done|done| | |tauto].
    + split; [|intros [?|?]; done].
      intros ->. by destruct Hcode as [[? _]|?].
    + intros ->. by destruct Hcode as [[? _]|?].
  - rewrite ret_run in Hrun. injection Hrun as <- <- <- <-.
    split_and!; [done|lia|done|done|auto].
Qed.

Lemma dt_run_grows thread_count thread config_zones db_new s rest db s' :
  dt_run E thread_count thread config_zones db_new s = Some (rest, db, s') ->
  db_new ⊆ db /\ (size db + length rest <= size db_new + length config_zones)%nat.
Proof.
  revert config_zones db_new s.
  induction thread_count as [|n IH]; intros config_zones db_new s Hrun.
  - injection Hrun as <- <- <-. split; [done|lia].
  - cbn [dt_run] in Hrun.
    apply bind_inv in Hrun as ([[r l1] db1] & s1 & Hthread & Hrun).
    assert (db_new ⊆ db1 /\
            (size db1 + length l1 <= size db_new + length config_zones)%nat)
      as (Hsub1 & Hsize1).
    { destruct (zone_loader_thread_guard thread config_zones db_new)
        as [(ctx & -> & Heq)|[Hbad Heq]]; rewrite Heq in Hthread.
      - apply zone_loader_thread_loop_monotone in Hthread. tauto.
      - rewrite ret_run in Hthread. injection Hthread as <- <- <- <-.
        split; [done|lia]. }
    apply IH in Hrun as (Hsub & Hsize). split; [by etrans|].
    cbn [fst snd] in *. lia.
Qed.

(** X16. After a reload that returned KNOT_EOK, the database of the name
    server holds no more zones than the configuration lists. *)
Theorem zones_update_db_from_config_loaded_count conf ns db_old s ns' old' s'
    (Hrun : zones_update_db_from_config E (Some conf) (Some ns) db_old s
            = Some (KNOT_EOK, Some ns', old', s')) :
  exists db_new,
    zone_db ns' = Some db_new /\ (size db_new <= length (zones conf))%nat.
Proof.
  unfold zones_update_db_from_config in Hrun.
  destruct (zone_db ns) as [old|]; [|done].
  apply bind_inv in Hrun as (loaded & s1 & Hload & Hrun).
  destruct loaded as [db_new|]; [|done].
  apply bind_inv in Hrun as (r1 & s2 & _ & Hrun).
  assert (ns' = set_zone_db ns (Some db_new)) as ->.
  { case_bool_decide; rewrite ret_run in Hrun; by simplify_eq. }
  exists db_new. split; [done|].
  unfold load_zonedb in Hload.
  destruct (knot_zonedb_new_ok E); cbn [negb] in Hload; [|done].
  destruct (bool_decide (zones_count conf = 0%nat)).
  { rewrite ret_run in Hload. injection Hload as <- <-.
    rewrite map_size_empty. lia. }
  destruct (pthread_mutex_init_ok E); cbn [negb] in Hload; [|done].
  destruct (dt_create_ok E); [|done].
  apply bind_inv in Hload as ([rest db] & s3 & Hdt & Hload).
  rewrite ret_run in Hload. injection Hload as <- <-.
  apply dt_run_grows in Hdt as (_ & Hsize).
  rewrite map_size_empty in Hsize. cbn [fst snd]. lia.
Qed.

End LoaderFacts.

(** ** The zone builders and the pipeline on the whole store *)

Lemma wf_state_grow s s1 :
  wf_state s ->
  zone_heap s1 = zone_heap s -> contents_heap s1 = contents_heap s ->
  (next_ptr s <= next_ptr s1)%nat -> wf_state s1.
Proof.
  intros [Hz Hc] Hzh Hch Hle. unfold wf_state. rewrite Hzh, Hch. split.
  - intros p z Hp. apply Hz in Hp. simpl in *. lia.
  - intros p c Hp. apply Hc in Hp. simpl in *. lia.
Qed.

Lemma wf_state_alloc s s1 pz z pc c :
  wf_state s ->
  zone_heap s1 = <[pz := z]> (zone_heap s) ->
  contents_heap s1 = contents_heap s \/
    contents_heap s1 = <[pc := c]> (contents_heap s) /\ (pc < next_ptr s1)%nat ->
  (pz < next_ptr s1)%nat -> (next_ptr s <= next_ptr s1)%nat -> wf_state s1.
Proof.
  intros [Hz Hc] Hzh Hch Hpz Hle. unfold wf_state. rewrite Hzh. split.
  - apply map_Forall_insert_2; [done|].
    intros p z' Hp. apply Hz in Hp. simpl in *. lia.
  - destruct Hch as [Hch|[Hch Hpc]]; rewrite Hch.
    + intros p c' Hp. apply Hc in Hp. simpl in *. lia.
    + apply map_Forall_insert_2; [done|].
      intros p c' Hp. apply Hc in Hp. simpl in *. lia.
Qed.

Section Store.

Variable E : externals.

(** What [create_zone] leaves behind, path by path. *)
Lemma create_zone_shape old_zone conf ns s created s1 :
  wf_state s ->
  (forall oz, old_zone = Some oz -> is_Some (zone_heap s !! oz)) ->
  create_zone E old_zone conf ns s = Some (created, s1) ->
  match created with
  | None =>
    zone_heap s1 = zone_heap s /\ contents_heap s1 = contents_heap s /\
    trace s1 = trace s /\ (next_ptr s <= next_ptr s1)%nat
  | Some new_zone =>
    new_zone = next_ptr s /\ (next_ptr s < next_ptr s1)%nat /\
    trace s1 = trace s ++ [EvResetTimers new_zone] /\
    exists nz,
      zone_heap s1 = <[new_zone := nz]> (zone_heap s) /\
      z_server nz = ns_data ns /\ z_conf nz = conf /\
      ((stat E (c_file conf) = None /\ z_contents nz = None /\
        contents_heap s1 = contents_heap s)
       \/
       (exists m pz,
          stat E (c_file conf) = Some m /\
          (forall oz o, old_zone = Some oz -> zone_heap s !! oz = Some o ->
                        zonefile_mtime o <> m) /\
          z_contents nz = Some (S (next_ptr s)) /\
          (S (next_ptr s) < next_ptr s1)%nat /\
          contents_heap s1 =
            <[S (next_ptr s) := contents_of_parsed pz (next_ptr s)]>
              (contents_heap s))
       \/
       (exists oz o c zc,
          old_zone = Some oz /\ zone_heap s !! oz = Some o /\
          stat E (c_file conf) = Some (zonefile_mtime o) /\
          z_contents o = Some c /\ contents_heap s !! c = Some zc /\
          z_contents nz = Some c /\
          contents_heap s1 =
            <[c := set_zc_zone zc (Some new_zone)]> (contents_heap s)))
  end.
Proof.
  intros Hwf Hold.
  pose proof (wf_zone_fresh _ Hwf) as Hzfresh.
  pose proof (wf_contents_fresh_ge s (S (next_ptr s)) Hwf ltac:(lia)) as Hcfresh.
  assert (Hload : forall m,
    stat E (c_file conf) = Some m ->
    (forall oz o, old_zone = Some oz -> zone_heap s !! oz = Some o ->
                  zonefile_mtime o <> m) ->
    (load_zone E conf ≫= λ created : option nat,
       match created with
       | Some nz0 =>
         get_zone nz0 ≫= λ z, put_zone nz0 (set_server z (ns_data ns))
           ≫= λ _, emit (EvResetTimers nz0) ≫= λ _, mret (Some nz0)
       | None => mret None
       end) s = Some (created, s1) ->
    match created with
    | None =>
      zone_heap s1 = zone_heap s /\ contents_heap s1 = contents_heap s /\
      trace s1 = trace s /\ (next_ptr s <= next_ptr s1)%nat
    | Some new_zone =>
      new_zone = next_ptr s /\ (next_ptr s < next_ptr s1)%nat /\
      trace s1 = trace s ++ [EvResetTimers new_zone] /\
      exists nz,
        zone_heap s1 = <[new_zone := nz]> (zone_heap s) /\
        z_server nz = ns_data ns /\ z_conf nz = conf /\
        z_contents nz = Some (S (next_ptr s)) /\
        (S (next_ptr s) < next_ptr s1)%nat /\
        exists pz, contents_heap s1 =
          <[S (next_ptr s) := contents_of_parsed pz (next_ptr s)]>
            (contents_heap s)
    end).
  { intros m Hm Hmt. unfold load_zone.
    destruct (knot_zload_open E conf); run;
      try (intros [= <- <-]; split_and!; done).
    unfold zload_load. destruct (knot_zload_load E conf) as [pz|]; run;
      [|intros [= <- <-]; split_and!; done].
    case_bool_decide; unfold zone_deep_free, knot_zone_serial; run.
    { intros [= <- <-]. fields.
      rewrite !delete_insert_id by done. split_and!; [done|done|done|lia]. }
    rewrite Hm. run. intros [= <- <-]. fields.
    split_and!; [done|lia|done|].
    eexists. split_and!; [reflexivity|done|done|done|lia|eauto]. }
  unfold create_zone, zone_file_status.
  destruct (stat E (c_file conf)) as [m|] eqn:Hst.
  2: { run. unfold bootstrap_zone, zone_new.
       destruct (c_acl_xfr_in conf); cbn [EMPTY_LIST]; run;
         [intros [= <- <-]; split_and!; done|].
       destruct (zone_new_ok E conf); run;
         [|intros [= <- <-]; split_and!; done].
       destruct (knot_dname_from_str E (c_name conf)); run;
         [|intros [= <- <-]; split_and!; done].
       intros [= <- <-]. fields. split_and!; [done|lia|done|].
       eexists. split_and!; [reflexivity|done|done|]. left. done. }
  destruct old_zone as [oz|].
  2: { run. intros Hrun. apply (Hload m) in Hrun; [|done|done].
       destruct created as [new_zone|]; [|done].
       destruct Hrun as (-> & Hlt & Htr & nz & Hzh & Hsrv & Hconf & Hc & Hlt' & pz & Hch).
       split_and!; [done|done|done|].
       exists nz. split_and!; [done|done|done|]. right. left.
       exists m, pz. split_and!; done. }
  destruct (Hold _ eq_refl) as [o Ho]. run.
  case_bool_decide as Hmt; run.
  2: { intros Hrun. apply (Hload m) in Hrun; [|done|].
       2: { intros oz' o' [= <-] Ho'. congruence. }
       destruct created as [new_zone|]; [|done].
       destruct Hrun as (-> & Hlt & Htr & nz & Hzh & Hsrv & Hconf & Hc & Hlt' & pz & Hch).
       split_and!; [done|done|done|].
       exists nz. split_and!; [done|done|done|]. right. left.
       exists m, pz. split_and!; try done.
       intros oz' o' [= <-] Ho'. congruence. }
  pose proof (wf_zone_lt _ _ _ Hwf Ho) as Hlt.
  unfold preserve_zone, zone_new.
  destruct (zone_new_ok E conf); run;
    [|intros [= <- <-]; split_and!; done].
  destruct (knot_dname_from_str E (c_name conf)); run;
    [|intros [= <- <-]; split_and!; done].
  destruct (z_contents o) as [c|] eqn:Hc; run; [|done].
  destruct (contents_heap s !! c) as [zc|] eqn:Hzc; run; [|done].
  intros [= <- <-]. fields. split_and!; [done|lia|done|].
  eexists. split_and!; [reflexivity|done|done|]. right. right.
  exists oz, o, c, zc. subst m. split_and!; done.
Qed.

Lemma wf_contents_below s c zc :
  wf_state s -> contents_heap s !! c = Some zc -> (c < next_ptr s)%nat.
Proof. intros [_ Hc] Hl. by apply Hc in Hl. Qed.

(** X17. create_zone never releases or alters a zone structure that was
    there before the call, and contents that were there keep their data
    (only their back-reference may move); the store stays well formed.
    When it returns NULL the zones and contents are exactly what they
    were.  When it returns a zone, the zone lies at an address that held
    no zone before and carries the server of the name server and the
    configuration it was built for. *)
Theorem create_zone_keeps_store old_zone conf ns s created s1
    (Hwf : wf_state s)
    (Hold : forall oz, old_zone = Some oz -> is_Some (zone_heap s !! oz))
    (Hrun : create_zone E old_zone conf ns s = Some (created, s1)) :
  wf_state s1 /\
  (forall p z, zone_heap s !! p = Some z -> zone_heap s1 !! p = Some z) /\
  (forall c zc, contents_heap s !! c = Some zc ->
     exists zc', contents_heap s1 !! c = Some zc' /\
       zc_serial zc' = zc_serial zc /\ zc_nsec3param zc' = zc_nsec3param zc /\
       zc_signed zc' = zc_signed zc) /\
  (created = None ->
     zone_heap s1 = zone_heap s /\ contents_heap s1 = contents_heap s) /\
  (forall new_zone, created = Some new_zone ->
     zone_heap s !! new_zone = None /\
     exists nz, zone_heap s1 !! new_zone = Some nz /\
       z_server nz = ns_data ns /\ z_conf nz = conf).
Proof.
  pose proof (create_zone_shape _ _ _ _ _ _ Hwf Hold Hrun) as Hshape.
  pose proof (wf_zone_fresh _ Hwf) as Hzfresh.
  destruct created as [new_zone|].
  2: { destruct Hshape as (Hzh & Hch & _ & Hle).
       split_and!; [by eapply wf_state_grow| | |done|done].
       - intros p z. by rewrite Hzh.
       - intros c zc Hc. exists zc. by rewrite Hch. }
  destruct Hshape as (-> & Hlt & _ & nz & Hzh & Hsrv & Hconf & Hpath).
  assert (Hzones : forall p z, zone_heap s !! p = Some z ->
                               zone_heap s1 !! p = Some z).
  { intros p z Hp. rewrite Hzh, lookup_insert_ne; [done|].
    intros <-. congruence. }
  assert (Hnew : forall new_zone, Some (next_ptr s) = Some new_zone ->
            zone_heap s !! new_zone = None /\
            exists nz, zone_heap s1 !! new_zone = Some nz /\
              z_server nz = ns_data ns /\ z_conf nz = conf).
  { intros ? [= <-]. split; [done|]. exists nz.
    by rewrite Hzh, lookup_insert_eq. }
  set (zc0 := {| zc_zone := None; zc_serial := 0; zc_nsec3param := KNOT_EOK;
                 zc_signed := false |}).
  destruct Hpath as [(_ & _ & Hch)
                    |[(m & pz & _ & _ & _ & Hlt' & Hch)
                     |(oz & o & c & zc & _ & _ & _ & _ & Hzc & _ & Hch)]].
  - split_and!; [|done| |done|done].
    + apply (wf_state_alloc s s1 (next_ptr s) nz (next_ptr s) zc0);
        [done|done|by left|lia|lia].
    + intros c zc Hc. exists zc. by rewrite Hch.
  - split_and!; [|done| |done|done].
    + apply (wf_state_alloc s s1 (next_ptr s) nz (S (next_ptr s))
               (contents_of_parsed pz (next_ptr s)));
        [done|done|right; split; [done|lia]|lia|lia].
    + intros c zc Hc. exists zc. rewrite Hch, lookup_insert_ne; [done|].
      intros <-. apply (wf_contents_below _ _ _ Hwf) in Hc. lia.
  - pose proof (wf_contents_below _ _ _ Hwf Hzc).
    split_and!; [|done| |done|done].
    + apply (wf_state_alloc s s1 (next_ptr s) nz c
               (set_zc_zone zc (Some (next_ptr s))));
        [done|done|right; split; [done|lia]|lia|lia].
    + intros c' zc' Hc'. rewrite Hch.
      destruct (decide (c = c')) as [<-|Hne].
      * rewrite lookup_insert_eq. eexists. split; [done|].
        assert (zc' = zc) as -> by congruence. done.
      * rewrite lookup_insert_ne by done. eauto.
Qed.




Lemma pipeline_calls_sign conf ns new_zone nz new_content zc z f :
  EvDiffAndSign z f ∈ pipeline_calls E conf ns new_zone nz new_content zc ->
  z = new_zone /\ f = new_content.
Proof.
  unfold pipeline_calls. rewrite elem_of_cons. intros [?|Hin]; [done|].
  destruct (journal_tolerated _); [|by apply elem_of_nil in Hin].
  apply elem_of_cons in Hin as [[= -> ->]|Hin]; [done|].
  case_bool_decide; [|by apply elem_of_nil in Hin].
  apply elem_of_cons in Hin as [?|Hin]; [done|].
  destruct (z_contents nz); [|by apply elem_of_nil in Hin].
  destruct zc; [|by apply elem_of_nil in Hin].
  apply elem_of_cons in Hin as [?|Hin]; [done|].
  destruct (_ && _); [|by apply elem_of_nil in Hin].
  apply elem_of_cons in Hin as [?|Hin]; [done|].
  by apply elem_of_nil in Hin.
Qed.

(** X19. The flag that update_zone passes to diff-and-sign follows the
    path the zone was built on: whenever the signer is called, it is
    called for the new zone, with new_content false on the FOUND_CURRENT
    path and true on every other path.  The hypotheses say that the old
    zone, if any, is allocated with its contents, and that a zone whose
    file is missing does not replace a zone without contents. *)
Theorem update_zone_sign_flag old_zone conf ns s st new_zone s1
    (Hwf : wf_state s)
    (Hold : forall oz, old_zone = Some oz -> is_Some (zone_heap s !! oz))
    (Hcont : forall oz o c, old_zone = Some oz -> zone_heap s !! oz = Some o ->
               z_contents o = Some c -> is_Some (contents_heap s !! c))
    (Hnull : stat E (c_file conf) = None ->
             forall oz o, old_zone = Some oz -> zone_heap s !! oz = Some o ->
                          is_Some (z_contents o))
    (Hst : zone_file_status E old_zone (c_file conf) s = Some (st, s))
    (Hcreate : create_zone E old_zone conf ns s = Some (Some new_zone, s1)) :
  exists r dst s' calls,
    update_zone E old_zone conf ns s = Some (r, dst, s') /\
    trace s' = trace s ++ calls /\
    forall z f, EvDiffAndSign z f ∈ calls ->
      z = new_zone /\ f = negb (bool_decide (st = ZONE_STATUS_FOUND_CURRENT)).
Proof.
  pose proof (create_zone_shape _ _ _ _ _ _ Hwf Hold Hcreate) as Hshape.
  destruct Hshape as (-> & Hlt & Htr & nz & Hzh & Hsrv & Hconf & Hpath).
  assert (Hnz : zone_heap s1 !! next_ptr s = Some nz)
    by (by rewrite Hzh, lookup_insert_eq).
  assert (Hother : forall oz o, zone_heap s !! oz = Some o ->
                     zone_heap s1 !! oz = Some o).
  { intros oz o Ho. rewrite Hzh, lookup_insert_ne; [done|].
    intros <-. pose proof (wf_zone_fresh _ Hwf). congruence. }
  assert (Hflag : new_content_of s1 old_zone nz
                  = negb (bool_decide (st = ZONE_STATUS_FOUND_CURRENT)) /\
                  (new_content_of s1 old_zone nz = false ->
                   is_Some (z_contents nz))).
  { unfold new_content_of, zone_file_status in *.
    destruct Hpath as [(Hstat & Hcn & _)
                      |[(m & pz & Hstat & Hmt & Hcn & _ & _)
                       |(oz & o & c & zc & -> & Ho & Hstat & Hoc & Hzc & Hcn & _)]];
      rewrite Hstat in Hst.
    - injection Hst as <-. rewrite bool_decide_eq_false_2 by done.
      destruct old_zone as [oz|]; [|done].
      destruct (Hold _ eq_refl) as [o Ho]. rewrite (Hother _ _ Ho), Hcn.
      destruct (Hnull Hstat _ _ eq_refl Ho) as [c Hc]. rewrite Hc.
      by rewrite bool_decide_eq_false_2.
    - destruct old_zone as [oz|].
      + destruct (Hold _ eq_refl) as [o Ho]. rewrite (Hother _ _ Ho), Hcn.
        rewrite bind_run, (get_zone_run _ _ _ Ho) in Hst.
        rewrite (bool_decide_eq_false_2 (zonefile_mtime o = m)) in Hst
          by (by apply (Hmt oz)).
        injection Hst as <-.
        rewrite (bool_decide_eq_false_2 (_ = ZONE_STATUS_FOUND_CURRENT)) by done.
        rewrite bool_decide_eq_false_2; [done|].
        intros Hc. destruct (Hcont _ _ _ eq_refl Ho Hc) as [zc Hzc].
        apply (wf_contents_below _ _ _ Hwf) in Hzc. lia.
      + injection Hst as <-. by rewrite bool_decide_eq_false_2.
    - rewrite bind_run, (get_zone_run _ _ _ Ho) in Hst.
      rewrite bool_decide_eq_true_2 in Hst by done. injection Hst as <-.
      rewrite (Hother _ _ Ho), Hoc, Hcn.
      rewrite !bool_decide_eq_true_2 by done. split; [done|eauto]. }
  destruct Hflag as [Hflag Hshared].
  destruct (update_zone_result E old_zone conf ns s (next_ptr s) s1 nz)
    as (dst & s' & Hrun & Htr' & _); try done.
  eexists _, dst, s', _. split; [exact Hrun|]. split.
  - rewrite Htr', Htr, <- app_assoc. reflexivity.
  - intros z f Hin. rewrite <- Hflag.
    apply elem_of_app in Hin as [Hin|Hin].
    + apply list_elem_of_singleton in Hin. done.
    + by apply pipeline_calls_sign in Hin.
Qed.

End Store.

(** ** The test bed: further instances *)

Section TestBedMore.

Import Scenario.

Lemma knot_wire_write_read_u16_witness :
  exists buf', knot_wire_write_u16 wire0 1 48879 = Some buf' /\
    knot_wire_read_u16 buf' 1 = Some (48879 mod 2 ^ 16).
Proof. apply (knot_wire_write_read_u16 wire0 1 48879). vm_compute. lia. Defined.

Lemma knot_wire_write_read_u32_witness :
  exists buf', knot_wire_write_u32 wire0 2 3735928559 = Some buf' /\
    knot_wire_read_u32 buf' 2 = Some (3735928559 mod 2 ^ 32).
Proof. apply (knot_wire_write_read_u32 wire0 2 3735928559). vm_compute. lia. Defined.

Lemma knot_wire_read_write_u16_witness :
  knot_wire_write_u16 wire0 1 13398 = Some wire0.
Proof. apply (knot_wire_read_write_u16 wire0 1 13398). reflexivity. Defined.

Lemma knot_wire_read_write_u32_witness :
  knot_wire_write_u32 wire0 1 878082202 = Some wire0.
Proof. apply (knot_wire_read_write_u32 wire0 1 878082202). reflexivity. Defined.

Lemma knot_wire_write_u16_frame_witness :
  length [x12; xbe; xef; x78; x9a; xbc] = length wire0 /\
  forall i, (i < 1 \/ 1 + 2 <= i)%nat ->
    [x12; xbe; xef; x78; x9a; xbc] !! i = wire0 !! i.
Proof. apply (knot_wire_write_u16_frame wire0 _ 1 48879). reflexivity. Defined.

Lemma knot_wire_write_u32_frame_witness :
  length [x12; x34; xde; xad; xbe; xef] = length wire0 /\
  forall i, (i < 2 \/ 2 + 4 <= i)%nat ->
    [x12; x34; xde; xad; xbe; xef] !! i = wire0 !! i.
Proof. apply (knot_wire_write_u32_frame wire0 _ 2 3735928559). reflexivity. Defined.

Lemma knot_wire_read_u32_halves_witness :
  knot_wire_read_u32 wire0 1 = Some (13398 * 65536 + 30874).
Proof. apply (knot_wire_read_u32_halves wire0 1); reflexivity. Defined.

Lemma remove_zones_exact_witness :
  exists db,
    remove_zones {["a." := 1%nat]} db0 s0 = Some (KNOT_EOK, db, s0) /\
    forall n, db !! n =
      match db0 !! n with
      | Some p =>
        if decide (({["a." := 1%nat]} : gmap string nat) !! n = Some p)
        then None else Some p
      | None => None
      end.
Proof.
  apply (remove_zones_exact {["a." := 1%nat]} db0 s0).
  intros n p Hn. apply lookup_singleton_Some in Hn as [<- <-].
  vm_compute. eauto.
Defined.

Lemma zones_update_db_from_config_outcome_witness :
  exists ns' old' s',
    zones_update_db_from_config E0 (Some conf0) (Some ns0) None s0
      = Some (KNOT_EOK, ns', old', s') /\
    exists db_new,
      load_zonedb E0 ns0 conf0 s0 = Some (Some db_new, s') /\
      ns' = Some (set_zone_db ns0 (Some db_new)) /\
      (zone_db <$> ns') =
        Some (Some (<["a." := 6%nat]> (<["b." := 7%nat]> (<["c." := 9%nat]> ∅)))).
Proof.
  eexists _, _, _. split; [vm_compute; reflexivity|].
  edestruct (zones_update_db_from_config_outcome E0 (Some conf0) (Some ns0)
               None s0) as (_ & _ & Hok).
  - vm_compute. reflexivity.
  - destruct (Hok eq_refl)
      as (c & n & old & db_new & rest & [= <-] & [= <-] & _ & Hload & Hns & _).
    exists db_new. split; [exact Hload|]. split; [exact Hns|].
    vm_compute. reflexivity.
Defined.


Lemma zones_update_db_from_config_no_zones_witness :
  zones_update_db_from_config E0 (Some conf_uncounted) (Some ns0) None s0
    = Some (KNOT_EOK, Some (set_zone_db ns0 (Some ∅)), Some db0, s0).
Proof.
  apply (zones_update_db_from_config_no_zones E0 conf_uncounted ns0 db0);
    reflexivity.
Defined.

Lemma zone_loader_thread_grows_witness :
  (exists r rest db s',
     zone_loader_thread E0 (loader_thread ns0) [conf_b; conf_c] ∅ s0
       = Some (r, rest, db, s') /\
     (∅ : gmap string nat) ⊆ db /\
     (size db + length rest <= size (∅ : gmap string nat) + 2)%nat /\
     r = KNOT_EOK /\ rest = []) /\
  (zone_loader_thread E0 (Some {| data := None |}) [conf_b; conf_c] ∅ s0
     = Some (KNOT_EINVAL, [conf_b; conf_c], ∅, s0)).
Proof.
  split; [|reflexivity].
  eexists _, _, _, _. split; [vm_compute; reflexivity|].
  edestruct (zone_loader_thread_grows E0 (loader_thread ns0) [conf_b; conf_c] ∅ s0)
    as (Hsub & Hsize & _ & _ & _).
  - vm_compute. reflexivity.
  - split_and!; [exact Hsub | exact Hsize | reflexivity | reflexivity].
Defined.

Lemma zones_update_db_from_config_loaded_count_witness :
  exists ns' old' s',
    zones_update_db_from_config E0 (Some conf0) (Some ns0) None s0
      = Some (KNOT_EOK, Some ns', old', s') /\
    exists db_new, zone_db ns' = Some db_new /\ (size db_new <= 3)%nat.
Proof.
  eexists _, _, _. split; [vm_compute; reflexivity|].
  eapply (zones_update_db_from_config_loaded_count E0 conf0 ns0 None s0).
  vm_compute. reflexivity.
Defined.

Lemma create_zone_keeps_store_witness :
  exists created s1,
    create_zone E0 (Some 1%nat) conf_a ns0 s0 = Some (created, s1) /\
    wf_state s1 /\
    forall p z, zone_heap s0 !! p = Some z -> zone_heap s1 !! p = Some z.
Proof.
  eexists _, _. split; [vm_compute; reflexivity|].
  edestruct (create_zone_keeps_store E0 (Some 1%nat) conf_a ns0 s0)
    as (Hwf & Hzones & _).
  - exact wf_s0.
  - intros oz [= <-]. vm_compute. eauto.
  - vm_compute. reflexivity.
  - split; [exact Hwf | exact Hzones].
Defined.


Lemma update_zone_sign_flag_witness :
  exists r dst s' calls,
    update_zone E0 (Some 1%nat) conf_a ns0 s0 = Some (r, dst, s') /\
    trace s' = trace s0 ++ calls /\
    forall z f, EvDiffAndSign z f ∈ calls ->
      z = 6%nat /\
      f = negb (bool_decide (ZONE_STATUS_FOUND_CURRENT = ZONE_STATUS_FOUND_CURRENT)).
Proof.
  eapply (update_zone_sign_flag E0 (Some 1%nat) conf_a ns0 s0).
  - exact wf_s0.
  - intros oz [= <-]. vm_compute. eauto.
  - intros oz o c [= <-] Ho Hc. vm_compute in Ho. injection Ho as <-.
    injection Hc as <-. vm_compute. eauto.
  - intros Hst. vm_compute in Hst. discriminate.
  - vm_compute. reflexivity.
  - vm_compute. reflexivity.
Defined.

End TestBedMore.
